(** * meal_max.models.kitchen_model: a shallow embedding

    The module keeps a catalogue of meals in one relational table
    ([meals]) and offers create / soft-delete / lookup / statistics /
    leaderboard operations on it.  Each Python function is embedded as a
    computation in a small state-and-exception monad whose state holds
    the persistent table, the working copy of the open connection and
    the log written so far.  [clear_meals] is left out: what it does is
    what the schema script does, and the script is not part of the
    source. *)

From Stdlib Require Import ZArith List String Bool Lia.
From Stdlib Require Import Permutation Sorted SpecFloat.
Import ListNotations.

Local Open Scope string_scope.
Local Open Scope list_scope.
Local Open Scope Z_scope.

(** ** Numbers

    Python's [float] and SQLite's REAL are IEEE-754 binary64 values;
    they are modelled bit-exactly with the standard library's
    [spec_float] at precision 53 and maximal exponent 1024. *)

Module Float64.

Definition prec : Z := 53.
Definition emax : Z := 1024.

Definition float := spec_float.

Definition zero : float := S754_zero false.

(** Conversion of an integer to the nearest double (C's
    [(double)i], Python's [float(i)]). *)
Definition of_Z (z : Z) : float := binary_normalize prec emax z 0 false.

Definition mul : float -> float -> float := SFmul prec emax.
Definition div : float -> float -> float := SFdiv prec emax.
Definition ltb : float -> float -> bool := SFltb.
Definition leb : float -> float -> bool := SFleb.


(** The double nearest to the rational [n / d], for [0 <= n] and
    [0 < d], with sign [s]. *)
Definition nearest_ratio (s : bool) (n d : Z) : float :=
  let '(q, e, l) := SFdiv_core_binary prec emax n 0 d 0 in
  binary_round_aux prec emax s q e l.

End Float64.

(** A Python number: an [int] or a [float].  Prices have this type, so
    that [isinstance(price, (int, float))] holds of every price. *)
Inductive number : Type :=
| PyInt (z : Z)
| PyFloat (f : Float64.float).

(** [n <= 0] and [n < 0] as Python evaluates them. *)
Definition num_le0 (n : number) : bool :=
  match n with
  | PyInt z => z <=? 0
  | PyFloat f => Float64.leb f Float64.zero
  end.

Definition num_lt0 (n : number) : bool :=
  match n with
  | PyInt z => z <? 0
  | PyFloat f => Float64.ltb f Float64.zero
  end.

(** [0 <= n], used to state the stored-record invariant. *)
Definition num_ge0 (n : number) : bool :=
  match n with
  | PyInt z => 0 <=? z
  | PyFloat f => Float64.leb Float64.zero f
  end.

(** [difficulty in ['LOW', 'MED', 'HIGH']] *)
Definition LEVELS : list string := ["LOW"; "MED"; "HIGH"].

Definition str_in (s : string) (l : list string) : bool :=
  existsb (String.eqb s) l.
Arguments str_in : simpl never.

(** ** The [meals] table *)

Module Row.
Record t : Type := mk {
  id : Z;
  meal : string;
  cuisine : string;
  price : number;
  difficulty : string;
  battles : Z;
  wins : Z;
  deleted : bool
}.
End Row.

(** Rows in rowid order. *)
Definition table : Type := list Row.t.

(** ** Exceptions and log records *)

(** The texts of the [ValueError]s the module raises, one constructor
    per message template, carrying the interpolated values. *)
Inductive message : Type :=
| Invalid_price (price : number)
    (* Invalid price: {price}. Price must be a positive number. *)
| Invalid_difficulty (difficulty : string)
    (* Invalid difficulty level: {difficulty}. Must be 'LOW', 'MED', or 'HIGH'. *)
| Name_exists (meal : string)
    (* Meal with name '{meal}' already exists *)
| Id_deleted (meal_id : Z)
    (* Meal with ID {meal_id} has been deleted *)
| Id_not_found (meal_id : Z)
    (* Meal with ID {meal_id} not found *)
| Name_deleted (meal_name : string)
    (* Meal with name {meal_name} has been deleted *)
| Name_not_found (meal_name : string)
    (* Meal with name {meal_name} not found *)
| Invalid_sort_by (sort_by : string)
    (* Invalid sort_by parameter: {sort_by} *)
| Invalid_result (result : string)
    (* Invalid result: {result}. Expected 'win' or 'loss'. *)
| Price_positive
    (* Price must be a positive value. *)
| Difficulty_level.
    (* Difficulty must be 'LOW', 'MED', or 'HIGH'. *)

Inductive exn : Type :=
| ValueError (m : message)
| TypeError
| OverflowError
    (* Python int too large to convert to SQLite INTEGER *)
| sqlite3_IntegrityError (text : string)
| sqlite3_Error (text : string).

(** [except sqlite3.Error]; [IntegrityError] is a subclass. *)
Definition is_sqlite3_Error (e : exn) : bool :=
  match e with
  | sqlite3_IntegrityError _ | sqlite3_Error _ => true
  | _ => false
  end.

Definition is_sqlite3_IntegrityError (e : exn) : bool :=
  match e with sqlite3_IntegrityError _ => true | _ => false end.

Definition is_TypeError (e : exn) : bool :=
  match e with TypeError => true | _ => false end.

(** [str(e)] *)
Definition str (e : exn) : string :=
  match e with
  | sqlite3_IntegrityError s | sqlite3_Error s => s
  | _ => ""
  end.

Inductive level : Type := INFO | ERROR.

Inductive arg : Type := AInt (z : Z) | AStr (s : string).

Record log_record : Type := Log {
  log_level : level;
  log_format : string;
  log_args : list arg
}.

(** ** The monad *)

Inductive result (A : Type) : Type :=
| Ok (a : A)
| Raise (e : exn).
Arguments Ok {A} a.
Arguments Raise {A} e.

(** [db] is the committed content of the table, [conn] the content as
    seen through the open connection (committed rows plus statements
    executed and not yet committed), [logs] the records handed to the
    logger, oldest first. *)
Record state : Type := State {
  db : table;
  conn : table;
  logs : list log_record
}.

Definition M (A : Type) : Type := state -> result A * state.

Definition ret {A} (a : A) : M A := fun s => (Ok a, s).

Definition raise {A} (e : exn) : M A := fun s => (Raise e, s).

Definition bind {A B} (m : M A) (k : A -> M B) : M B :=
  fun s =>
    match m s with
    | (Ok a, s') => k a s'
    | (Raise e, s') => (Raise e, s')
    end.

Notation "x <- m ;; k" := (bind m (fun x => k))
  (at level 61, m at next level, right associativity).
Notation "m ;; k" := (bind m (fun _ => k))
  (at level 61, right associativity).

Definition logger_info (fmt : string) (args : list arg) : M unit :=
  fun s => (Ok tt, State (db s) (conn s) (logs s ++ [Log INFO fmt args])).

Definition logger_error (fmt : string) (args : list arg) : M unit :=
  fun s => (Ok tt, State (db s) (conn s) (logs s ++ [Log ERROR fmt args])).

(** [try: body except E1: h1 except E2: h2 ...]: the first clause whose
    class matches handles the exception; an exception raised by a handler
    is not offered to the later clauses. *)
Fixpoint dispatch {A} (clauses : list ((exn -> bool) * (exn -> M A)))
    (e : exn) : M A :=
  match clauses with
  | [] => raise e
  | (handles, handler) :: rest =>
      if handles e then handler e else dispatch rest e
  end.

Definition try_except {A} (body : M A)
    (clauses : list ((exn -> bool) * (exn -> M A))) : M A :=
  fun s =>
    match body s with
    | (Raise e, s') => dispatch clauses e s'
    | r => r
    end.

(** ** The storage engine

    [meal_max.utils.sql_utils] and the schema script are not part of the
    source; the definitions of this section model them.  A column of
    integers is kept as the integer it holds, of type [Z]: SQLite's
    INTEGER is a signed 64-bit value, and what the driver and the engine
    do at the ends of that range is written out where it happens (the
    binding of parameters, the generation of identifiers, the increment
    of a counter). *)

(** The range of SQLite's INTEGER storage class, as a test. *)
Definition is_sqlite_integer (z : Z) : bool :=
  (- 2 ^ 63 <=? z) && (z <? 2 ^ 63).

(** The values the module passes as parameters of a statement. *)
Inductive parameter : Type :=
| P_int (z : Z)
| P_float (f : Float64.float)
| P_str (s : string).

Definition parameter_of (n : number) : parameter :=
  match n with
  | PyInt z => P_int z
  | PyFloat f => P_float f
  end.

(** [cursor.execute(sql, parameters)] binds the parameters before the
    statement runs; an [int] that does not fit a signed 64-bit integer
    makes the driver raise [OverflowError]. *)
Definition bindable (p : parameter) : bool :=
  match p with
  | P_int z => is_sqlite_integer z
  | _ => true
  end.

Definition bind_parameters (ps : list parameter) : M unit :=
  if forallb bindable ps then ret tt else raise OverflowError.

(** Modelled from the spec: [get_db_connection] is the external
    connection provider, which hands out a scoped connection that is
    released on every exit path.  Statements run through the connection
    become persistent at [commit]; what is not committed when the scope
    is left is dropped with the connection. *)
Definition get_db_connection {A} (body : M A) : M A :=
  fun s =>
    let '(r, s') := body (State (db s) (db s) (logs s)) in
    (r, State (db s') (db s') (logs s')).

(** [conn.commit()] *)
Definition commit : M unit :=
  fun s => (Ok tt, State (conn s) (conn s) (logs s)).

(** [cursor.execute(<select>, parameters); cursor.fetchone()] and
    [fetchall()] *)
Definition fetch {A} (parameters : list parameter) (query : table -> A)
    : M A :=
  bind_parameters parameters ;;
  fun s => (Ok (query (conn s)), s).

(** [cursor.execute(<insert or update>, parameters)] *)
Definition execute (parameters : list parameter)
    (stmt : table -> result table) : M unit :=
  bind_parameters parameters ;;
  fun s =>
    match stmt (conn s) with
    | Ok t => (Ok tt, State (db s) t (logs s))
    | Raise e => (Raise e, s)
    end.

(** Modelled from the spec: the identifier is the integer primary key
    generated by the store, one more than the largest identifier in the
    table. *)
Definition next_id (t : table) : Z :=
  1 + fold_right (fun r m => Z.max (Row.id r) m) 0 t.

Definition has_name (meal : string) (t : table) : bool :=
  existsb (fun r => String.eqb (Row.meal r) meal) t.

(** The driver binds a NaN as NULL. *)
Definition bound_as_null (price : number) : bool :=
  match price with
  | PyFloat S754_nan => true
  | _ => false
  end.

(** Modelled from the spec: [INSERT INTO meals (meal, cuisine, price,
    difficulty) VALUES (?, ?, ?, ?)] under the logical schema, in which
    the identifier is generated by the store, every record has a price,
    [meal] is unique (case-sensitive, whatever the [deleted] flag) and
    [battles], [wins] and [deleted] default to 0, 0 and false.  When the
    largest identifier is the largest INTEGER none can be generated and
    the engine reports that the database is full; a NULL price and a
    name already present violate a constraint. *)
Definition INSERT_INTO_meals (meal cuisine : string) (price : number)
    (difficulty : string) (t : table) : result table :=
  if negb (is_sqlite_integer (next_id t)) then
    Raise (sqlite3_Error "database or disk is full")
  else if bound_as_null price then
    Raise (sqlite3_IntegrityError "NOT NULL constraint failed: meals.price")
  else if has_name meal t then
    Raise (sqlite3_IntegrityError "UNIQUE constraint failed: meals.meal")
  else Ok (t ++ [Row.mk (next_id t) meal cuisine price difficulty 0 0 false]).

Definition where_id (meal_id : Z) (r : Row.t) : bool := Row.id r =? meal_id.

Definition where_meal (meal_name : string) (r : Row.t) : bool :=
  String.eqb (Row.meal r) meal_name.

(** [SELECT deleted FROM meals WHERE id = ?], first row *)
Definition SELECT_deleted (meal_id : Z) (t : table) : option bool :=
  option_map Row.deleted (find (where_id meal_id) t).

(** [SELECT id, meal, cuisine, price, difficulty, deleted FROM meals
    WHERE ...], first row *)
Definition SELECT_meal (cond : Row.t -> bool) (t : table)
    : option (Z * string * string * number * string * bool) :=
  option_map
    (fun r => (Row.id r, Row.meal r, Row.cuisine r, Row.price r,
               Row.difficulty r, Row.deleted r))
    (find cond t).

(** [UPDATE meals SET ... WHERE id = ?] *)
Definition UPDATE_meals (assign : Row.t -> Row.t) (meal_id : Z) (t : table)
    : result table :=
  Ok (map (fun r => if where_id meal_id r then assign r else r) t).

(** [SET deleted = TRUE] *)
Definition SET_deleted (r : Row.t) : Row.t :=
  Row.mk (Row.id r) (Row.meal r) (Row.cuisine r) (Row.price r)
         (Row.difficulty r) (Row.battles r) (Row.wins r) true.

(** [counter + 1] as SQLite computes it, by value: an INTEGER gains one,
    the largest INTEGER becoming the REAL 2^63; a REAL of that size or
    beyond absorbs the increment, the doubles there being more than one
    apart. *)
Definition plus_one (counter : Z) : Z :=
  if is_sqlite_integer counter then counter + 1 else counter.

(** [SET battles = battles + 1, wins = wins + 1] *)
Definition SET_battles_wins (r : Row.t) : Row.t :=
  Row.mk (Row.id r) (Row.meal r) (Row.cuisine r) (Row.price r)
         (Row.difficulty r) (plus_one (Row.battles r))
         (plus_one (Row.wins r)) (Row.deleted r).

(** [SET battles = battles + 1] *)
Definition SET_battles (r : Row.t) : Row.t :=
  Row.mk (Row.id r) (Row.meal r) (Row.cuisine r) (Row.price r)
         (Row.difficulty r) (plus_one (Row.battles r)) (Row.wins r)
         (Row.deleted r).

(** *** The leaderboard query *)

(** [ORDER BY key DESC]: a stable insertion sort.  In which order the
    engine returns rows with equal keys is not specified; nothing below
    depends on the choice made here. *)
Section OrderBy.
Context {K : Type}.
Variable geb : K -> K -> bool.
Variable key : Row.t -> K.

Fixpoint insert_desc (x : Row.t) (l : list Row.t) : list Row.t :=
  match l with
  | [] => [x]
  | y :: l' =>
      if geb (key x) (key y) then x :: l else y :: insert_desc x l'
  end.

Definition ORDER_BY_DESC (l : list Row.t) : list Row.t :=
  fold_right insert_desc [] l.
End OrderBy.

(** [1.0] *)
Definition one : Float64.float := S754_finite false 4503599627370496 (-52).

(** [(wins * 1.0 / battles) AS win_pct] *)
Definition win_pct (r : Row.t) : Float64.float :=
  Float64.div (Float64.mul (Float64.of_Z (Row.wins r)) one)
              (Float64.of_Z (Row.battles r)).

(** [WHERE deleted = false AND battles > 0] *)
Definition on_leaderboard (r : Row.t) : bool :=
  negb (Row.deleted r) && (0 <? Row.battles r).

Inductive order_clause : Type :=
| ORDER_BY_win_pct_DESC
| ORDER_BY_wins_DESC.

Definition float_geb (x y : Float64.float) : bool := Float64.leb y x.

Definition ordered (o : order_clause) (l : list Row.t) : list Row.t :=
  match o with
  | ORDER_BY_win_pct_DESC => ORDER_BY_DESC float_geb win_pct l
  | ORDER_BY_wins_DESC => ORDER_BY_DESC Z.geb Row.wins l
  end.

Definition leaderboard_row : Type :=
  Z * string * string * number * string * Z * Z * Float64.float.

(** [SELECT id, meal, cuisine, price, difficulty, battles, wins,
    (wins * 1.0 / battles) AS win_pct FROM meals
    WHERE deleted = false AND battles > 0 ORDER BY ... DESC] *)
Definition SELECT_leaderboard (o : order_clause) (t : table)
    : list leaderboard_row :=
  map (fun r => (Row.id r, Row.meal r, Row.cuisine r, Row.price r,
                 Row.difficulty r, Row.battles r, Row.wins r, win_pct r))
      (ordered o (filter on_leaderboard t)).

(** ** Python built-ins *)

(** [row[0]] on the result of [fetchone()]: subscripting [None] raises
    [TypeError]. *)
Definition getitem {A} (row : option A) : M A :=
  match row with
  | Some x => ret x
  | None => raise TypeError
  end.

(** The integer nearest to [n / d] for [0 < d], ties to the even one. *)
Definition div_half_even (n d : Z) : Z :=
  let q := n / d in
  match 2 * (n mod d) ?= d with
  | Lt => q
  | Gt => q + 1
  | Eq => if Z.even q then q else q + 1
  end.

(** [round(x, ndigits)] for a float and [0 <= ndigits]: the exact value
    of [x] is rounded half-even to [ndigits] decimals, and the decimal
    obtained is converted back to the nearest double.  Infinities, NaN
    and zeros round to themselves. *)
Definition round (x : Float64.float) (ndigits : nat) : Float64.float :=
  match x with
  | S754_finite s m e =>
      let p := 10 ^ Z.of_nat ndigits in
      let n :=
        if 0 <=? e then Zpos m * 2 ^ e * p
        else div_half_even (Zpos m * p) (2 ^ (- e)) in
      Float64.nearest_ratio s n p
  | _ => x
  end.

(** ** The module *)

Module Meal.

Record t : Type := mk {
  id : Z;
  meal : string;
  cuisine : string;
  price : number;
  difficulty : string
}.

Definition post_init (self : t) : M unit :=
  if num_lt0 (price self) then
    raise (ValueError Price_positive)
  else if negb (str_in (difficulty self) LEVELS) then
    raise (ValueError Difficulty_level)
  else ret tt.

(** [Meal(id=..., meal=..., cuisine=..., price=..., difficulty=...)] *)
Definition new (id : Z) (meal cuisine : string) (price : number)
    (difficulty : string) : M t :=
  let self := mk id meal cuisine price difficulty in
  post_init self ;;
  ret self.

End Meal.

(** The first test of the source, [not isinstance(price, (int, float))
    or price <= 0], comes down to [price <= 0] on a [number]. *)
Definition create_meal (meal cuisine : string) (price : number)
    (difficulty : string) : M unit :=
  if num_le0 price then
    raise (ValueError (Invalid_price price))
  else if negb (str_in difficulty LEVELS) then
    raise (ValueError (Invalid_difficulty difficulty))
  else
    try_except
      (get_db_connection
         (execute [P_str meal; P_str cuisine; parameter_of price;
                   P_str difficulty]
                  (INSERT_INTO_meals meal cuisine price difficulty) ;;
          commit ;;
          logger_info "Meal successfully added to the database: %s"
                      [AStr meal]))
      [ (is_sqlite3_IntegrityError,
         fun _ =>
           logger_error "Duplicate meal name: %s" [AStr meal] ;;
           raise (ValueError (Name_exists meal)));
        (is_sqlite3_Error,
         fun e =>
           logger_error "Database error: %s" [AStr (str e)] ;;
           raise e) ].

Definition delete_meal (meal_id : Z) : M unit :=
  try_except
    (get_db_connection
       (row <- fetch [P_int meal_id] (SELECT_deleted meal_id) ;;
        try_except
          (deleted <- getitem row ;;
           if deleted : bool then
             logger_info "Meal with ID %s has already been deleted"
                         [AInt meal_id] ;;
             raise (ValueError (Id_deleted meal_id))
           else ret tt)
          [ (is_TypeError,
             fun _ =>
               logger_info "Meal with ID %s not found" [AInt meal_id] ;;
               raise (ValueError (Id_not_found meal_id))) ] ;;
        execute [P_int meal_id] (UPDATE_meals SET_deleted meal_id) ;;
        commit ;;
        logger_info "Meal with ID %s marked as deleted." [AInt meal_id]))
    [ (is_sqlite3_Error,
       fun e =>
         logger_error "Database error: %s" [AStr (str e)] ;;
         raise e) ].

Module Entry.
(** One dictionary of the leaderboard, by key. *)
Record t : Type := mk {
  id : Z;
  meal : string;
  cuisine : string;
  price : number;
  difficulty : string;
  battles : Z;
  wins : Z;
  win_pct : Float64.float
}.
End Entry.

Definition entry_of_row (row : leaderboard_row) : Entry.t :=
  let '(c0, c1, c2, c3, c4, c5, c6, c7) := row in
  Entry.mk c0 c1 c2 c3 c4 c5 c6
           (round (Float64.mul c7 (Float64.of_Z 100)) 1).

Definition get_leaderboard (sort_by : string) : M (list Entry.t) :=
  query <-
    (if String.eqb sort_by "win_pct" then ret ORDER_BY_win_pct_DESC
     else if String.eqb sort_by "wins" then ret ORDER_BY_wins_DESC
     else
       logger_error "Invalid sort_by parameter: %s" [AStr sort_by] ;;
       raise (ValueError (Invalid_sort_by sort_by))) ;;
  try_except
    (rows <- get_db_connection (fetch [] (SELECT_leaderboard query)) ;;
     let leaderboard := map entry_of_row rows in
     logger_info "Leaderboard retrieved successfully" [] ;;
     ret leaderboard)
    [ (is_sqlite3_Error,
       fun e =>
         logger_error "Database error: %s" [AStr (str e)] ;;
         raise e) ].

Definition get_meal_by_id (meal_id : Z) : M Meal.t :=
  try_except
    (get_db_connection
       (row <- fetch [P_int meal_id] (SELECT_meal (where_id meal_id)) ;;
        match row with
        | Some (c0, c1, c2, c3, c4, c5) =>
            if c5 : bool then
              logger_info "Meal with ID %s has been deleted" [AInt meal_id] ;;
              raise (ValueError (Id_deleted meal_id))
            else Meal.new c0 c1 c2 c3 c4
        | None =>
            logger_info "Meal with ID %s not found" [AInt meal_id] ;;
            raise (ValueError (Id_not_found meal_id))
        end))
    [ (is_sqlite3_Error,
       fun e =>
         logger_error "Database error: %s" [AStr (str e)] ;;
         raise e) ].

Definition get_meal_by_name (meal_name : string) : M Meal.t :=
  try_except
    (get_db_connection
       (row <- fetch [P_str meal_name]
                     (SELECT_meal (where_meal meal_name)) ;;
        match row with
        | Some (c0, c1, c2, c3, c4, c5) =>
            if c5 : bool then
              logger_info "Meal with name %s has been deleted"
                          [AStr meal_name] ;;
              raise (ValueError (Name_deleted meal_name))
            else Meal.new c0 c1 c2 c3 c4
        | None =>
            logger_info "Meal with name %s not found" [AStr meal_name] ;;
            raise (ValueError (Name_not_found meal_name))
        end))
    [ (is_sqlite3_Error,
       fun e =>
         logger_error "Database error: %s" [AStr (str e)] ;;
         raise e) ].

Definition update_meal_stats (meal_id : Z) (result : string) : M unit :=
  try_except
    (get_db_connection
       (row <- fetch [P_int meal_id] (SELECT_deleted meal_id) ;;
        try_except
          (deleted <- getitem row ;;
           if deleted : bool then
             logger_info "Meal with ID %s has been deleted" [AInt meal_id] ;;
             raise (ValueError (Id_deleted meal_id))
           else ret tt)
          [ (is_TypeError,
             fun _ =>
               logger_info "Meal with ID %s not found" [AInt meal_id] ;;
               raise (ValueError (Id_not_found meal_id))) ] ;;
        (if String.eqb result "win" then
           execute [P_int meal_id] (UPDATE_meals SET_battles_wins meal_id)
         else if String.eqb result "loss" then
           execute [P_int meal_id] (UPDATE_meals SET_battles meal_id)
         else
           raise (ValueError (Invalid_result result))) ;;
        commit))
    [ (is_sqlite3_Error,
       fun e =>
         logger_error "Database error: %s" [AStr (str e)] ;;
         raise e) ].

(** ** Running an operation on a table *)

Definition run {A} (op : M A) (t : table) : result A * state :=
  op (State t t []).

(** What the call returns or raises, the table it leaves behind and the
    log records it emits. *)
Definition outcome {A} (op : M A) (t : table) : result A := fst (run op t).
Definition table_after {A} (op : M A) (t : table) : table :=
  db (snd (run op t)).
Definition logged {A} (op : M A) (t : table) : list log_record :=
  logs (snd (run op t)).

(** ** Vocabulary of the specification *)

(** The error taxonomy.  The module raises [ValueError] for the first
    four kinds, told apart by their message, and lets [sqlite3.Error]
    through for the last. *)
Inductive failure : Type :=
| invalid_argument
| not_found
| already_deleted
| duplicate_name
| storage_error.

Definition failure_of (e : exn) : option failure :=
  match e with
  | ValueError (Invalid_price _)
  | ValueError (Invalid_difficulty _)
  | ValueError (Invalid_sort_by _)
  | ValueError (Invalid_result _)
  | ValueError Price_positive
  | ValueError Difficulty_level => Some invalid_argument
  | ValueError (Id_not_found _)
  | ValueError (Name_not_found _) => Some not_found
  | ValueError (Id_deleted _)
  | ValueError (Name_deleted _) => Some already_deleted
  | ValueError (Name_exists _) => Some duplicate_name
  | sqlite3_IntegrityError _
  | sqlite3_Error _ => Some storage_error
  | TypeError | OverflowError => None
  end.

(** The kind of failure a call ends with, if it fails. *)
Definition fails {A} (op : M A) (t : table) : option failure :=
  match outcome op t with
  | Ok _ => None
  | Raise e => failure_of e
  end.

(** The row an identifier or a name designates.  The store holds
    identifiers of SQLite's INTEGER class only: an integer outside that
    range designates no row. *)
Definition row_by_id (meal_id : Z) (t : table) : option Row.t :=
  if is_sqlite_integer meal_id then find (where_id meal_id) t else None.

Definition row_by_name (meal_name : string) (t : table) : option Row.t :=
  find (where_meal meal_name) t.

Arguments is_sqlite_integer : simpl never.
Arguments plus_one : simpl never.
Arguments bound_as_null : simpl never.
Arguments next_id : simpl never.
Arguments has_name : simpl never.
Arguments where_id : simpl never.
Arguments where_meal : simpl never.
Arguments row_by_id : simpl never.
Arguments row_by_name : simpl never.

(** The three mutating operations and the tables they can build. *)
Inductive operation : Type :=
| Create (meal cuisine : string) (price : number) (difficulty : string)
| Delete (meal_id : Z)
| UpdateStats (meal_id : Z) (result : string).

Definition apply (o : operation) (t : table) : table :=
  match o with
  | Create meal cuisine price difficulty =>
      table_after (create_meal meal cuisine price difficulty) t
  | Delete meal_id => table_after (delete_meal meal_id) t
  | UpdateStats meal_id result =>
      table_after (update_meal_stats meal_id result) t
  end.

Inductive reachable : table -> Prop :=
| reachable_empty : reachable []
| reachable_apply (o : operation) (t : table) :
    reachable t -> reachable (apply o t).

(** The stored-record invariants of the data model. *)
Definition stats_ok (r : Row.t) : Prop :=
  Row.wins r <= Row.battles r /\ 0 <= Row.battles r /\ 0 <= Row.wins r.


(** The range of SQLite's INTEGER storage class. *)
Definition sqlite_integer (z : Z) : Prop := - 2 ^ 63 <= z < 2 ^ 63.

(** A price the store can hold: an [int] of SQLite's INTEGER class or a
    [float] other than NaN. *)
Definition storable (price : number) : bool :=
  bindable (parameter_of price) && negb (bound_as_null price).


(** The leaderboard entry of a row: its columns and the percentage of
    battles won, rounded to one decimal. *)
Definition percentage (wins battles : Z) : Float64.float :=
  round
    (Float64.mul
       (Float64.div (Float64.mul (Float64.of_Z wins) one)
                    (Float64.of_Z battles))
       (Float64.of_Z 100))
    1.

(** [y] is [x] rounded to one decimal.  A finite [x] of magnitude
    [m * 2^e] has a nearest multiple [n / 10] of one tenth, the one with
    [n] even when two are equally near, and [y] is the double nearest to
    it, with the sign of [x]:
    [|n / 10 - m * 2^e| <= 1 / 20], written without fractions.  An
    infinity, a NaN and a zero are their own rounding. *)
Definition rounded_to_one_decimal (x y : Float64.float) : Prop :=
  match x with
  | S754_finite s m e =>
      exists n : Z,
        let gap :=
          2 * Z.abs (n * 2 ^ Z.max 0 (- e) - 10 * Zpos m * 2 ^ Z.max 0 e) in
        gap <= 2 ^ Z.max 0 (- e) /\
        (gap = 2 ^ Z.max 0 (- e) -> Z.even n = true) /\
        y = Float64.nearest_ratio s n 10
  | _ => y = x
  end.

Definition entry_of (r : Row.t) : Entry.t :=
  Entry.mk (Row.id r) (Row.meal r) (Row.cuisine r) (Row.price r)
           (Row.difficulty r) (Row.battles r) (Row.wins r)
           (percentage (Row.wins r) (Row.battles r)).



(** The projection the lookups return. *)
Definition meal_of (r : Row.t) : Meal.t :=
  Meal.mk (Row.id r) (Row.meal r) (Row.cuisine r) (Row.price r)
          (Row.difficulty r).

(** What [Meal(...)] does with the columns of a fetched row. *)
Definition construct (r : Row.t) : result Meal.t :=
  if num_lt0 (Row.price r) then Raise (ValueError Price_positive)
  else if negb (str_in (Row.difficulty r) LEVELS) then
    Raise (ValueError Difficulty_level)
  else Ok (meal_of r).

(** A small catalogue used to exercise the statements: two meals with
    recorded battles, one fresh meal and one soft-deleted meal. *)
Definition demo : table :=
  [ Row.mk 1 "Pizza" "Italian" (PyFloat (Float64.of_Z 5)) "LOW" 4 3 false;
    Row.mk 2 "Sushi" "Japanese" (PyInt 12) "HIGH" 8 4 false;
    Row.mk 3 "Stew" "Irish" (PyInt 7) "MED" 0 0 false;
    Row.mk 4 "Tacos" "Mexican" (PyInt 3) "LOW" 2 2 true ].

(** ** Sequences of operations *)

Definition apply_all (os : list operation) (t : table) : table :=
  fold_left (fun t o => apply o t) os t.

(** The columns that describe a meal, as opposed to its statistics and
    its deleted flag. *)
Definition same_description (r r' : Row.t) : Prop :=
  Row.id r' = Row.id r /\ Row.meal r' = Row.meal r /\
  Row.cuisine r' = Row.cuisine r /\ Row.price r' = Row.price r /\
  Row.difficulty r' = Row.difficulty r.

(** The three assignments of the module's [UPDATE] statements. *)
Definition assignment (g : Row.t -> Row.t) : Prop :=
  g = SET_deleted \/ g = SET_battles \/ g = SET_battles_wins.

(** What one call of a mutating operation does to the table: nothing,
    one insertion at the end, with a generated identifier and a price
    the store can hold, or one assignment on the rows of an
    identifier whose first row is not soft-deleted. *)
Inductive step (t : table) : table -> Prop :=
| step_none : step t t
| step_insert (meal cuisine : string) (price : number) (difficulty : string) :
    num_le0 price = false ->
    str_in difficulty LEVELS = true ->
    storable price = true ->
    is_sqlite_integer (next_id t) = true ->
    has_name meal t = false ->
    step t (t ++ [Row.mk (next_id t) meal cuisine price difficulty 0 0 false])
| step_update (meal_id : Z) (r : Row.t) (g : Row.t -> Row.t) :
    row_by_id meal_id t = Some r ->
    Row.deleted r = false ->
    assignment g ->
    step t (map (fun x => if where_id meal_id x then g x else x) t).

(** The identifier a deletion or a statistics update is about. *)
Definition key_of (o : operation) : option Z :=
  match o with
  | Create _ _ _ _ => None
  | Delete meal_id => Some meal_id
  | UpdateStats meal_id _ => Some meal_id
  end.

(** The assignment such an operation performs on the rows of its
    identifier, given the first of them: none when there is no such row,
    when it is soft-deleted or when the outcome is not recognised. *)
Definition effect (o : operation) (found : option Row.t) : Row.t -> Row.t :=
  match found with
  | None => fun x => x
  | Some r =>
      if Row.deleted r then fun x => x
      else
        match o with
        | Create _ _ _ _ => fun x => x
        | Delete _ => SET_deleted
        | UpdateStats _ result =>
            if String.eqb result "win" then SET_battles_wins
            else if String.eqb result "loss" then SET_battles
            else fun x => x
        end
  end.

(** A short history from the empty table, and the table it builds: two
    meals, the first with one win and one loss, the second with one
    loss. *)
Definition history : list operation :=
  [ Create "Pizza" "Italian" (PyInt 5) "LOW";
    Create "Sushi" "Japanese" (PyInt 12) "HIGH";
    UpdateStats 1 "win";
    UpdateStats 2 "loss";
    UpdateStats 1 "loss" ].

Definition played : table := apply_all history [].

(** * Symbolic execution of the operations *)

Ltac run_op :=
  unfold run, try_except, get_db_connection, bind, fetch, execute, commit,
    logger_info, logger_error, raise, ret, getitem; cbn.

Ltac by_run L :=
  unfold fails, outcome, table_after, logged; rewrite L; cbn.

Lemma is_sqlite_integer_iff (z : Z) :
  is_sqlite_integer z = true <-> sqlite_integer z.
Proof.
  unfold is_sqlite_integer, sqlite_integer.
  rewrite andb_true_iff, Z.leb_le, Z.ltb_lt. tauto.
Qed.

Lemma run_create_meal (t : table) (meal cuisine : string) (price : number)
    (difficulty : string) :
  run (create_meal meal cuisine price difficulty) t =
  if num_le0 price then
    (Raise (ValueError (Invalid_price price)), State t t [])
  else if negb (str_in difficulty LEVELS) then
    (Raise (ValueError (Invalid_difficulty difficulty)), State t t [])
  else if negb (bindable (parameter_of price)) then
    (Raise OverflowError, State t t [])
  else if negb (is_sqlite_integer (next_id t)) then
    (Raise (sqlite3_Error "database or disk is full"),
     State t t
       [Log ERROR "Database error: %s" [AStr "database or disk is full"]])
  else if bound_as_null price || has_name meal t then
    (Raise (ValueError (Name_exists meal)),
     State t t [Log ERROR "Duplicate meal name: %s" [AStr meal]])
  else
    let t' := t ++ [Row.mk (next_id t) meal cuisine price difficulty 0 0 false] in
    (Ok tt,
     State t' t'
       [Log INFO "Meal successfully added to the database: %s" [AStr meal]]).
Proof.
  unfold create_meal.
  destruct (num_le0 price); [reflexivity|].
  destruct (negb (str_in difficulty LEVELS)); [reflexivity|].
  unfold bind_parameters. run_op. unfold INSERT_INTO_meals, bind_parameters.
  cbn. rewrite andb_true_r.
  destruct (bindable (parameter_of price)); [|reflexivity]. cbn.
  destruct (is_sqlite_integer (next_id t)); [|reflexivity]. cbn.
  destruct (bound_as_null price); [reflexivity|]. cbn.
  destruct (has_name meal t); reflexivity.
Qed.

Lemma run_delete_meal (t : table) (meal_id : Z) :
  run (delete_meal meal_id) t =
  match row_by_id meal_id t with
  | None =>
      if is_sqlite_integer meal_id then
        (Raise (ValueError (Id_not_found meal_id)),
         State t t [Log INFO "Meal with ID %s not found" [AInt meal_id]])
      else (Raise OverflowError, State t t [])
  | Some r =>
      if Row.deleted r then
        (Raise (ValueError (Id_deleted meal_id)),
         State t t
           [Log INFO "Meal with ID %s has already been deleted"
                [AInt meal_id]])
      else
        let t' := map (fun r => if where_id meal_id r then SET_deleted r else r) t in
        (Ok tt,
         State t' t'
           [Log INFO "Meal with ID %s marked as deleted." [AInt meal_id]])
  end.
Proof.
  unfold delete_meal, row_by_id, SELECT_deleted. run_op.
  unfold bind_parameters. cbn. rewrite andb_true_r.
  destruct (is_sqlite_integer meal_id) eqn:Hid; [|reflexivity]. cbn.
  destruct (find (where_id meal_id) t) as [r|]; cbn; [|reflexivity].
  destruct (Row.deleted r); reflexivity.
Qed.

Lemma run_update_meal_stats (t : table) (meal_id : Z) (result : string) :
  run (update_meal_stats meal_id result) t =
  match row_by_id meal_id t with
  | None =>
      if is_sqlite_integer meal_id then
        (Raise (ValueError (Id_not_found meal_id)),
         State t t [Log INFO "Meal with ID %s not found" [AInt meal_id]])
      else (Raise OverflowError, State t t [])
  | Some r =>
      if Row.deleted r then
        (Raise (ValueError (Id_deleted meal_id)),
         State t t
           [Log INFO "Meal with ID %s has been deleted" [AInt meal_id]])
      else if String.eqb result "win" then
        let t' :=
          map (fun r => if where_id meal_id r then SET_battles_wins r else r) t in
        (Ok tt, State t' t' [])
      else if String.eqb result "loss" then
        let t' :=
          map (fun r => if where_id meal_id r then SET_battles r else r) t in
        (Ok tt, State t' t' [])
      else
        (Raise (ValueError (Invalid_result result)), State t t [])
  end.
Proof.
  unfold update_meal_stats, row_by_id, SELECT_deleted. run_op.
  unfold bind_parameters. cbn. rewrite andb_true_r.
  destruct (is_sqlite_integer meal_id) eqn:Hid; [|reflexivity]. cbn.
  destruct (find (where_id meal_id) t) as [r|]; cbn; [|reflexivity].
  destruct (Row.deleted r); cbn; [reflexivity|].
  destruct (String.eqb result "win"); cbn; [reflexivity|].
  destruct (String.eqb result "loss"); reflexivity.
Qed.

Lemma run_Meal_new (t : table) (id : Z) (meal cuisine : string)
    (price : number) (difficulty : string) :
  run (Meal.new id meal cuisine price difficulty) t =
  (if num_lt0 price then Raise (ValueError Price_positive)
   else if negb (str_in difficulty LEVELS) then
     Raise (ValueError Difficulty_level)
   else Ok (Meal.mk id meal cuisine price difficulty),
   State t t []).
Proof.
  unfold run, Meal.new, Meal.post_init, bind. cbn.
  destruct (num_lt0 price); [reflexivity|].
  destruct (str_in difficulty LEVELS); reflexivity.
Qed.

Lemma run_get_meal_by_id (t : table) (meal_id : Z) :
  run (get_meal_by_id meal_id) t =
  match row_by_id meal_id t with
  | None =>
      if is_sqlite_integer meal_id then
        (Raise (ValueError (Id_not_found meal_id)),
         State t t [Log INFO "Meal with ID %s not found" [AInt meal_id]])
      else (Raise OverflowError, State t t [])
  | Some r =>
      if Row.deleted r then
        (Raise (ValueError (Id_deleted meal_id)),
         State t t
           [Log INFO "Meal with ID %s has been deleted" [AInt meal_id]])
      else (construct r, State t t [])
  end.
Proof.
  unfold get_meal_by_id, row_by_id, SELECT_meal, construct. run_op.
  unfold bind_parameters. cbn. rewrite andb_true_r.
  destruct (is_sqlite_integer meal_id) eqn:Hid; [|reflexivity]. cbn.
  destruct (find (where_id meal_id) t) as [r|]; cbn; [|reflexivity].
  destruct (Row.deleted r); cbn; [reflexivity|].
  unfold Meal.new, Meal.post_init, bind; cbn.
  destruct (num_lt0 (Row.price r)); cbn; [reflexivity|].
  destruct (negb (str_in (Row.difficulty r) LEVELS)); reflexivity.
Qed.

Lemma run_get_meal_by_name (t : table) (meal_name : string) :
  run (get_meal_by_name meal_name) t =
  match row_by_name meal_name t with
  | None =>
      (Raise (ValueError (Name_not_found meal_name)),
       State t t [Log INFO "Meal with name %s not found" [AStr meal_name]])
  | Some r =>
      if Row.deleted r then
        (Raise (ValueError (Name_deleted meal_name)),
         State t t
           [Log INFO "Meal with name %s has been deleted" [AStr meal_name]])
      else (construct r, State t t [])
  end.
Proof.
  unfold get_meal_by_name, row_by_name, SELECT_meal, construct. run_op.
  unfold bind_parameters. cbn.
  destruct (find (where_meal meal_name) t) as [r|]; cbn; [|reflexivity].
  destruct (Row.deleted r); cbn; [reflexivity|].
  unfold Meal.new, Meal.post_init, bind; cbn.
  destruct (num_lt0 (Row.price r)); cbn; [reflexivity|].
  destruct (negb (str_in (Row.difficulty r) LEVELS)); reflexivity.
Qed.

Lemma run_get_leaderboard (t : table) (sort_by : string) :
  run (get_leaderboard sort_by) t =
  if String.eqb sort_by "win_pct" then
    (Ok (map entry_of_row (SELECT_leaderboard ORDER_BY_win_pct_DESC t)),
     State t t [Log INFO "Leaderboard retrieved successfully" []])
  else if String.eqb sort_by "wins" then
    (Ok (map entry_of_row (SELECT_leaderboard ORDER_BY_wins_DESC t)),
     State t t [Log INFO "Leaderboard retrieved successfully" []])
  else
    (Raise (ValueError (Invalid_sort_by sort_by)),
     State t t [Log ERROR "Invalid sort_by parameter: %s" [AStr sort_by]]).
Proof.
  unfold get_leaderboard. run_op. unfold bind_parameters. cbn.
  destruct (String.eqb sort_by "win_pct"); [reflexivity|].
  destruct (String.eqb sort_by "wins"); reflexivity.
Qed.

(** * The increment of a counter *)

Lemma plus_one_spec (z : Z) :
  (sqlite_integer z /\ plus_one z = z + 1) \/
  (~ sqlite_integer z /\ plus_one z = z).
Proof.
  unfold plus_one. destruct (is_sqlite_integer z) eqn:E.
  - left. split; [now apply is_sqlite_integer_iff | reflexivity].
  - right. split; [|reflexivity].
    intros H. apply is_sqlite_integer_iff in H. congruence.
Qed.

Lemma plus_one_in_range (z : Z) : sqlite_integer z -> plus_one z = z + 1.
Proof.
  intros H. destruct (plus_one_spec z) as [[_ ->]|[Hn _]]; tauto.
Qed.

Lemma plus_one_bounds (z : Z) : z <= plus_one z <= z + 1.
Proof.
  destruct (plus_one_spec z) as [[_ ->]|[_ ->]]; lia.
Qed.

Lemma plus_one_mono (a b : Z) : a <= b -> plus_one a <= plus_one b.
Proof.
  unfold sqlite_integer.
  destruct (plus_one_spec a) as [[Ha ->]|[Ha ->]],
           (plus_one_spec b) as [[Hb ->]|[Hb ->]];
    unfold sqlite_integer in *; lia.
Qed.
(** * Facts about tables, strings and numbers *)

Lemma find_update_same (meal_id : Z) (f : Row.t -> Row.t) (t : table) :
  (forall r, Row.id (f r) = Row.id r) ->
  row_by_id meal_id (map (fun r => if where_id meal_id r then f r else r) t)
  = option_map f (row_by_id meal_id t).
Proof.
  intros Hid. unfold row_by_id.
  destruct (is_sqlite_integer meal_id); [|reflexivity].
  induction t as [|r t IH]; cbn; [reflexivity|].
  destruct (where_id meal_id r) eqn:E.
  - unfold where_id in *. rewrite Hid, E. reflexivity.
  - rewrite E. exact IH.
Qed.

Lemma find_update_other (meal_id other : Z) (f : Row.t -> Row.t) (t : table) :
  (forall r, Row.id (f r) = Row.id r) ->
  other <> meal_id ->
  row_by_id other (map (fun r => if where_id meal_id r then f r else r) t)
  = row_by_id other t.
Proof.
  intros Hid Hne. unfold row_by_id.
  destruct (is_sqlite_integer other); [|reflexivity].
  induction t as [|r t IH]; cbn; [reflexivity|].
  unfold where_id in *.
  destruct (Row.id r =? meal_id) eqn:E1.
  - rewrite Hid. destruct (Row.id r =? other) eqn:E2; [lia | exact IH].
  - destruct (Row.id r =? other); [reflexivity | exact IH].
Qed.

Lemma find_app_last (f : Row.t -> bool) (t : table) (r : Row.t) :
  (forall x, In x t -> f x = false) -> f r = true ->
  find f (t ++ [r]) = Some r.
Proof.
  intros Hnone Hr. induction t as [|x t IH]; cbn.
  - now rewrite Hr.
  - rewrite (Hnone x) by (left; reflexivity).
    apply IH. intros y Hy. apply Hnone. now right.
Qed.

Lemma Forall_update (P : Row.t -> Prop) (c : Row.t -> bool)
    (f : Row.t -> Row.t) (t : table) :
  (forall r, P r -> P (f r)) ->
  Forall P t -> Forall P (map (fun r => if c r then f r else r) t).
Proof.
  intros Hf Ht. induction Ht as [|r t Hr Ht IH]; cbn; constructor; auto.
  destruct (c r); auto.
Qed.

Lemma has_name_true (meal : string) (t : table) :
  has_name meal t = true <-> exists r, In r t /\ Row.meal r = meal.
Proof.
  unfold has_name. rewrite existsb_exists.
  split; intros [r [Hin H]]; exists r; split; auto.
  - now apply String.eqb_eq.
  - now apply String.eqb_eq.
Qed.

Lemma has_name_false (meal : string) (t : table) :
  has_name meal t = false <-> forall r, In r t -> Row.meal r <> meal.
Proof.
  split.
  - intros H r Hin Heq.
    assert (has_name meal t = true) by (apply has_name_true; eauto).
    congruence.
  - intros H. destruct (has_name meal t) eqn:E; [|reflexivity].
    apply has_name_true in E. destruct E as [r [Hin Heq]].
    exfalso. eapply H; eauto.
Qed.

Lemma has_name_where_meal (meal : string) (t : table) :
  has_name meal t = false -> forall x, In x t -> where_meal meal x = false.
Proof.
  intros H x Hin. unfold where_meal.
  apply String.eqb_neq. now apply (proj1 (has_name_false meal t) H).
Qed.

Lemma next_id_above (t : table) (r : Row.t) :
  In r t -> Row.id r < next_id t.
Proof.
  unfold next_id. induction t as [|x t IH]; cbn [fold_right In];
    [contradiction|].
  intros [->|Hin]; [lia|]. specialize (IH Hin). lia.
Qed.

Lemma str_in_true (s : string) (l : list string) :
  In s l -> str_in s l = true.
Proof.
  intros H. unfold str_in. apply existsb_exists.
  exists s. split; [assumption | apply String.eqb_refl].
Qed.

Lemma str_in_false (s : string) (l : list string) :
  ~ In s l -> str_in s l = false.
Proof.
  intros H. unfold str_in. destruct (existsb (String.eqb s) l) eqn:E; auto.
  apply existsb_exists in E. destruct E as [x [Hin Heq]].
  apply String.eqb_eq in Heq. subst x. contradiction.
Qed.

Lemma float_lt0_le0 (f : Float64.float) :
  Float64.ltb f Float64.zero = true -> Float64.leb f Float64.zero = true.
Proof.
  unfold Float64.ltb, Float64.leb, SFltb, SFleb.
  destruct (SFcompare f Float64.zero) as [[]|]; congruence.
Qed.

Lemma float_ge0_not_lt0 (f : Float64.float) :
  Float64.leb Float64.zero f = true -> Float64.ltb f Float64.zero = false.
Proof.
  destruct f as [s|s| |s m e]; try destruct s; cbn; congruence.
Qed.

Lemma num_lt0_le0 (p : number) : num_lt0 p = true -> num_le0 p = true.
Proof.
  destruct p as [z|f]; cbn.
  - lia.
  - apply float_lt0_le0.
Qed.

Lemma num_ge0_not_lt0 (p : number) : num_ge0 p = true -> num_lt0 p = false.
Proof.
  destruct p as [z|f]; cbn.
  - lia.
  - apply float_ge0_not_lt0.
Qed.

Lemma num_gt0_not_lt0 (p : number) : num_le0 p = false -> num_lt0 p = false.
Proof.
  intros H. destruct (num_lt0 p) eqn:E; [|reflexivity].
  apply num_lt0_le0 in E. congruence.
Qed.






(** * The order on doubles *)







(** * Rounding never yields NaN, and SQLite integers convert to finite doubles *)



















(** * Sorting *)

Section OrderByFacts.
Context {K : Type}.
Variable geb : K -> K -> bool.
Variable key : Row.t -> K.
Variable comparable : K -> Prop.
Hypothesis geb_total :
  forall a b, comparable a -> comparable b ->
  geb a b = false -> geb b a = true.
Hypothesis geb_trans :
  forall a b c, geb a b = true -> geb b c = true -> geb a c = true.

Lemma insert_desc_perm (x : Row.t) (l : list Row.t) :
  Permutation (insert_desc geb key x l) (x :: l).
Proof.
  induction l as [|y l IH]; cbn; [reflexivity|].
  destruct (geb (key x) (key y)); [reflexivity|].
  rewrite IH. apply perm_swap.
Qed.

Lemma ORDER_BY_DESC_perm (l : list Row.t) :
  Permutation (ORDER_BY_DESC geb key l) l.
Proof.
  induction l as [|x l IH]; cbn; [reflexivity|].
  rewrite insert_desc_perm. now constructor.
Qed.



End OrderByFacts.

Lemma map_entry_of_row (o : order_clause) (t : table) :
  map entry_of_row (SELECT_leaderboard o t)
  = map entry_of (ordered o (filter on_leaderboard t)).
Proof.
  unfold SELECT_leaderboard. rewrite map_map. reflexivity.
Qed.




(** * Reachable tables *)

Lemma apply_stats_ok (o : operation) (t : table) :
  Forall stats_ok t -> Forall stats_ok (apply o t).
Proof.
  intros Ht. destruct o as [meal cuisine price difficulty|meal_id|meal_id result];
    unfold apply.
  - by_run run_create_meal.
    destruct (num_le0 price); [assumption|].
    destruct (str_in difficulty LEVELS); [|assumption].
    destruct (bindable (parameter_of price)); [|assumption].
    destruct (is_sqlite_integer (next_id t)); [|assumption].
    destruct (bound_as_null price); [assumption|].
    destruct (has_name meal t); [assumption|]. cbn.
    apply Forall_app. split; [assumption|].
    constructor; [|constructor]. unfold stats_ok. cbn. lia.
  - by_run run_delete_meal.
    destruct (row_by_id meal_id t) as [r|];
      [|now destruct (is_sqlite_integer meal_id)].
    destruct (Row.deleted r); [assumption|]. cbn.
    apply Forall_update; [|assumption].
    intros x Hx. exact Hx.
  - by_run run_update_meal_stats.
    destruct (row_by_id meal_id t) as [r|];
      [|now destruct (is_sqlite_integer meal_id)].
    destruct (Row.deleted r); [assumption|].
    destruct (String.eqb result "win"); cbn.
    { apply Forall_update; [|assumption].
      unfold stats_ok. cbn. intros x (Hwb & Hb & Hw).
      pose proof (plus_one_mono _ _ Hwb).
      pose proof (plus_one_bounds (Row.battles x)).
      pose proof (plus_one_bounds (Row.wins x)). lia. }
    destruct (String.eqb result "loss"); cbn; [|assumption].
    apply Forall_update; [|assumption].
    unfold stats_ok. cbn. intros x (Hwb & Hb & Hw).
    pose proof (plus_one_bounds (Row.battles x)). lia.
Qed.



(** * Statistics updates *)




(** * The leaderboard *)



(** What rounding to one decimal asks for: one third of a hundred, the
    double 33.33333333333333, rounds to 33.3 and to nothing else; left as
    it is, it would not be its own rounding. *)
Example one_third_of_a_hundred :
  let x := Float64.mul (Float64.div (Float64.of_Z 1) (Float64.of_Z 3))
                       (Float64.of_Z 100) in
  forall y, rounded_to_one_decimal x y <->
            y = Float64.nearest_ratio false 333 10.
Proof.
  intros x y.
  assert (Hx : x = S754_finite false 4691249611844266 (-47))
    by (vm_compute; reflexivity).
  rewrite Hx. unfold rounded_to_one_decimal.
  rewrite (Z.max_r 0 (- -47)), (Z.max_l 0 (-47)) by lia.
  change (- -47) with 47. change (2 ^ 0) with 1.
  change (2 ^ 47) with 140737488355328.
  split.
  - intros (n & Hgap & _ & ->). cbv zeta in Hgap.
    assert (n = 333) as -> by lia. reflexivity.
  - intros ->. exists 333. cbv zeta. repeat split; lia.
Qed.

(** The leaderboards of the demonstration catalogue: the soft-deleted
    meal and the meal without battles are left out, 3 wins of 4 battles
    are reported as 75.0 and 4 of 8 as 50.0, and the two sort keys order
    the two remaining meals differently. *)
Example leaderboard_of_demo :
  outcome (get_leaderboard "win_pct") demo
  = Ok [ Entry.mk 1 "Pizza" "Italian" (PyFloat (Float64.of_Z 5)) "LOW" 4 3
                  (Float64.of_Z 75);
         Entry.mk 2 "Sushi" "Japanese" (PyInt 12) "HIGH" 8 4
                  (Float64.of_Z 50) ] /\
  outcome (get_leaderboard "wins") demo
  = Ok [ Entry.mk 2 "Sushi" "Japanese" (PyInt 12) "HIGH" 8 4
                  (Float64.of_Z 50);
         Entry.mk 1 "Pizza" "Italian" (PyFloat (Float64.of_Z 5)) "LOW" 4 3
                  (Float64.of_Z 75) ].
Proof.
  split; vm_compute; reflexivity.
Qed.

(** One win of three battles is reported as 33.3, three wins of 2000
    battles, whose quotient times 100 is the double just below 0.15, as
    0.1. *)
Example percentage_examples :
  percentage 1 3 = Float64.nearest_ratio false 333 10 /\
  percentage 3 2000 = Float64.nearest_ratio false 1 10.
Proof.
  split; vm_compute; reflexivity.
Qed.

(** * Creation *)




(** * Soft deletion *)




(** * Lookups *)




(** * The statistics invariant *)

(** C6: in every table built from the empty one by creations, deletions
    and statistics updates, successful or not, every row has
    wins <= battles, 0 <= battles and 0 <= wins. *)
Theorem reachable_stats_ok (t : table) :
  reachable t -> Forall stats_ok t.
Proof.
  induction 1 as [|o t Hreach IH].
  - constructor.
  - now apply apply_stats_ok.
Qed.

Lemma reachable_stats_ok_witness :
  Forall stats_ok
    (apply (UpdateStats 1 "loss")
       (apply (UpdateStats 1 "win")
          (apply (Delete 2)
             (apply (Create "Sushi" "Japanese" (PyInt 12) "HIGH")
                (apply (Create "Pizza" "Italian" (PyInt 5) "LOW") []))))).
Proof.
  apply reachable_stats_ok.
  repeat apply reachable_apply. apply reachable_empty.
Defined.

(** * The record validator *)

(** C7: constructing a [Meal] fails with invalid-argument when the price
    is negative and when the difficulty is not one of the three levels,
    and succeeds, returning the record with the given fields, when the
    price is at least zero and the difficulty is one of the levels; the
    lookups construct the record from the columns of the row they
    fetch. *)
Theorem Meal_validation (t : table) (id : Z) (meal cuisine : string)
    (price : number) (difficulty : string) :
  (num_lt0 price = true ->
     fails (Meal.new id meal cuisine price difficulty) t
     = Some invalid_argument) /\
  (~ In difficulty LEVELS ->
     fails (Meal.new id meal cuisine price difficulty) t
     = Some invalid_argument) /\
  (num_ge0 price = true -> In difficulty LEVELS ->
     outcome (Meal.new id meal cuisine price difficulty) t
     = Ok (Meal.mk id meal cuisine price difficulty)) /\
  (forall r, row_by_id id t = Some r -> Row.deleted r = false ->
     outcome (get_meal_by_id id) t
     = outcome (Meal.new (Row.id r) (Row.meal r) (Row.cuisine r)
                         (Row.price r) (Row.difficulty r)) t) /\
  (forall r, row_by_name meal t = Some r -> Row.deleted r = false ->
     outcome (get_meal_by_name meal) t
     = outcome (Meal.new (Row.id r) (Row.meal r) (Row.cuisine r)
                         (Row.price r) (Row.difficulty r)) t).
Proof.
  repeat apply conj.
  - intros Hp. by_run run_Meal_new. now rewrite Hp.
  - intros Hd. by_run run_Meal_new. rewrite (str_in_false _ _ Hd).
    now destruct (num_lt0 price).
  - intros Hp Hd. by_run run_Meal_new.
    now rewrite (num_ge0_not_lt0 _ Hp), (str_in_true _ _ Hd).
  - intros r Hr Hd. unfold outcome.
    rewrite run_get_meal_by_id, run_Meal_new, Hr, Hd. cbn.
    unfold construct, meal_of.
    destruct (num_lt0 (Row.price r)); [reflexivity|].
    now destruct (str_in (Row.difficulty r) LEVELS).
  - intros r Hr Hd. unfold outcome.
    rewrite run_get_meal_by_name, run_Meal_new, Hr, Hd. cbn.
    unfold construct, meal_of.
    destruct (num_lt0 (Row.price r)); [reflexivity|].
    now destruct (str_in (Row.difficulty r) LEVELS).
Qed.

Lemma Meal_validation_witness :
  fails (Meal.new 1 "Pizza" "Italian" (PyInt (-1)) "LOW") demo
  = Some invalid_argument /\
  fails (Meal.new 1 "Pizza" "Italian" (PyInt 5) "EASY") demo
  = Some invalid_argument /\
  outcome (Meal.new 1 "Pizza" "Italian" (PyInt 0) "LOW") demo
  = Ok (Meal.mk 1 "Pizza" "Italian" (PyInt 0) "LOW") /\
  outcome (get_meal_by_id 2) demo
  = outcome (Meal.new 2 "Sushi" "Japanese" (PyInt 12) "HIGH") demo /\
  outcome (get_meal_by_name "Sushi") demo
  = outcome (Meal.new 2 "Sushi" "Japanese" (PyInt 12) "HIGH") demo.
Proof.
  destruct (Meal_validation demo 1 "Pizza" "Italian" (PyInt (-1)) "LOW")
    as (Hneg & _).
  destruct (Meal_validation demo 1 "Pizza" "Italian" (PyInt 5) "EASY")
    as (_ & Hlevel & _).
  destruct (Meal_validation demo 1 "Pizza" "Italian" (PyInt 0) "LOW")
    as (_ & _ & Hzero & _).
  destruct (Meal_validation demo 2 "Sushi" "Japanese" (PyInt 12) "HIGH")
    as (_ & _ & _ & Hid & Hname).
  repeat apply conj.
  - apply Hneg. reflexivity.
  - apply Hlevel. cbn. intros [H|[H|[H|[]]]]; discriminate.
  - apply Hzero; [reflexivity | left; reflexivity].
  - apply (Hid (Row.mk 2 "Sushi" "Japanese" (PyInt 12) "HIGH" 8 4 false));
      reflexivity.
  - apply (Hname (Row.mk 2 "Sushi" "Japanese" (PyInt 12) "HIGH" 8 4 false));
      reflexivity.
Defined.

(** * Creation followed by lookup *)

(** C8: after a successful creation, which requires that no row carried
    the name, the lookup by that name and the lookup by the generated
    identifier both succeed and return the name, cuisine, price and
    difficulty that were given. *)
Theorem create_then_get (t : table) (meal cuisine : string) (price : number)
    (difficulty : string) :
  outcome (create_meal meal cuisine price difficulty) t = Ok tt ->
  let t' := table_after (create_meal meal cuisine price difficulty) t in
  (forall r, In r t -> Row.meal r <> meal) /\
  outcome (get_meal_by_name meal) t'
  = Ok (Meal.mk (next_id t) meal cuisine price difficulty) /\
  outcome (get_meal_by_id (next_id t)) t'
  = Ok (Meal.mk (next_id t) meal cuisine price difficulty).
Proof.
  unfold outcome, table_after. rewrite run_create_meal.
  destruct (num_le0 price) eqn:Hp; [discriminate|].
  destruct (str_in difficulty LEVELS) eqn:Hd; [|discriminate].
  destruct (bindable (parameter_of price)); [|discriminate].
  destruct (is_sqlite_integer (next_id t)) eqn:Hroom; [|discriminate].
  destruct (bound_as_null price); [discriminate|].
  destruct (has_name meal t) eqn:Hn; [discriminate|].
  intros _. cbn.
  set (r := Row.mk (next_id t) meal cuisine price difficulty 0 0 false).
  assert (Hc : construct r
               = Ok (Meal.mk (next_id t) meal cuisine price difficulty)).
  { unfold construct, r. cbn. now rewrite (num_gt0_not_lt0 _ Hp), Hd. }
  repeat apply conj.
  - now apply has_name_false.
  - rewrite run_get_meal_by_name. unfold row_by_name.
    rewrite find_app_last.
    + exact Hc.
    + now apply has_name_where_meal.
    + unfold where_meal, r. cbn. apply String.eqb_refl.
  - rewrite run_get_meal_by_id. unfold row_by_id. rewrite Hroom.
    rewrite find_app_last.
    + exact Hc.
    + intros x Hx. apply next_id_above in Hx. unfold where_id.
      apply Z.eqb_neq. lia.
    + unfold where_id, r. cbn. apply Z.eqb_refl.
Qed.

Lemma create_then_get_witness :
  (forall r, In r demo -> Row.meal r <> "Soup") /\
  outcome (get_meal_by_name "Soup")
    (table_after (create_meal "Soup" "French" (PyInt 4) "LOW") demo)
  = Ok (Meal.mk 5 "Soup" "French" (PyInt 4) "LOW") /\
  outcome (get_meal_by_id 5)
    (table_after (create_meal "Soup" "French" (PyInt 4) "LOW") demo)
  = Ok (Meal.mk 5 "Soup" "French" (PyInt 4) "LOW").
Proof.
  apply (create_then_get demo "Soup" "French" (PyInt 4) "LOW").
  reflexivity.
Defined.

(** * Failures and the log *)

(** The failure paths that hand a record to the logger before raising:
    the not-found and already-deleted failures of a deletion, of a
    statistics update and of the lookups, the duplicate name of a
    creation and the unknown sort key of the leaderboard.  An identifier
    that cannot be bound raises [OverflowError] past every handler, and
    nothing is logged. *)
Lemma logged_failures (t : table) :
  (forall meal_id e, outcome (delete_meal meal_id) t = Raise e ->
     e <> OverflowError ->
     logged (delete_meal meal_id) t <> []) /\
  (forall meal_id result e,
     outcome (update_meal_stats meal_id result) t = Raise e ->
     e <> OverflowError ->
     e <> ValueError (Invalid_result result) ->
     logged (update_meal_stats meal_id result) t <> []) /\
  (forall meal cuisine price difficulty,
     outcome (create_meal meal cuisine price difficulty) t
     = Raise (ValueError (Name_exists meal)) ->
     logged (create_meal meal cuisine price difficulty) t <> []) /\
  (forall sort_by e, outcome (get_leaderboard sort_by) t = Raise e ->
     logged (get_leaderboard sort_by) t <> []) /\
  (forall meal_id e, outcome (get_meal_by_id meal_id) t = Raise e ->
     e <> OverflowError ->
     failure_of e <> Some invalid_argument ->
     logged (get_meal_by_id meal_id) t <> []) /\
  (forall meal_name e, outcome (get_meal_by_name meal_name) t = Raise e ->
     failure_of e <> Some invalid_argument ->
     logged (get_meal_by_name meal_name) t <> []).
Proof.
  repeat apply conj.
  - intros meal_id e. by_run run_delete_meal.
    destruct (row_by_id meal_id t) as [r|].
    + destruct (Row.deleted r); discriminate.
    + destruct (is_sqlite_integer meal_id); [discriminate|].
      cbn. intros [= <-]. congruence.
  - intros meal_id result e. by_run run_update_meal_stats.
    destruct (row_by_id meal_id t) as [r|].
    + destruct (Row.deleted r); [discriminate|].
      destruct (String.eqb result "win"); [discriminate|].
      destruct (String.eqb result "loss"); [discriminate|].
      cbn. intros [= <-]. congruence.
    + destruct (is_sqlite_integer meal_id); [discriminate|].
      cbn. intros [= <-]. congruence.
  - intros meal cuisine price difficulty. by_run run_create_meal.
    destruct (num_le0 price); [discriminate|].
    destruct (str_in difficulty LEVELS); [|discriminate].
    destruct (bindable (parameter_of price)); [|discriminate].
    destruct (is_sqlite_integer (next_id t)); [|discriminate].
    destruct (bound_as_null price || has_name meal t); discriminate.
  - intros sort_by e. by_run run_get_leaderboard.
    destruct (String.eqb sort_by "win_pct"); [discriminate|].
    destruct (String.eqb sort_by "wins"); discriminate.
  - intros meal_id e. by_run run_get_meal_by_id.
    destruct (row_by_id meal_id t) as [r|].
    + destruct (Row.deleted r); [discriminate|].
      unfold construct. cbn.
      destruct (num_lt0 (Row.price r)); cbn; [intros [= <-]; now cbn|].
      destruct (str_in (Row.difficulty r) LEVELS); cbn;
        [discriminate | intros [= <-]; now cbn].
    + destruct (is_sqlite_integer meal_id); [discriminate|].
      cbn. intros [= <-]. congruence.
  - intros meal_name e. by_run run_get_meal_by_name.
    destruct (row_by_name meal_name t) as [r|]; [|discriminate].
    destruct (Row.deleted r); [discriminate|].
    unfold construct. cbn.
    destruct (num_lt0 (Row.price r)); cbn; [intros [= <-]; now cbn|].
    destruct (str_in (Row.difficulty r) LEVELS); cbn;
      [discriminate | intros [= <-]; now cbn].
Qed.

(** C9, where the code departs from it: a statistics update with an
    outcome other than win or loss, on a row that is present and not
    soft-deleted, raises its invalid-argument failure without handing
    anything to the logger; so does a creation whose price or difficulty
    is rejected. *)
Theorem unlogged_failures :
  (outcome (update_meal_stats 1 "draw") demo
   = Raise (ValueError (Invalid_result "draw")) /\
   logged (update_meal_stats 1 "draw") demo = []) /\
  (outcome (create_meal "Soup" "French" (PyInt 0) "LOW") demo
   = Raise (ValueError (Invalid_price (PyInt 0))) /\
   logged (create_meal "Soup" "French" (PyInt 0) "LOW") demo = []) /\
  (outcome (create_meal "Soup" "French" (PyInt 4) "EASY") demo
   = Raise (ValueError (Invalid_difficulty "EASY")) /\
   logged (create_meal "Soup" "French" (PyInt 4) "EASY") demo = []).
Proof.
  repeat split.
Qed.

(** * Failures and the table *)

(** C10: when a creation, a deletion or a statistics update raises, the
    table it leaves behind is the table it was called on. *)
Theorem failed_call_keeps_table (t : table) :
  (forall meal cuisine price difficulty e,
     outcome (create_meal meal cuisine price difficulty) t = Raise e ->
     table_after (create_meal meal cuisine price difficulty) t = t) /\
  (forall meal_id e,
     outcome (delete_meal meal_id) t = Raise e ->
     table_after (delete_meal meal_id) t = t) /\
  (forall meal_id result e,
     outcome (update_meal_stats meal_id result) t = Raise e ->
     table_after (update_meal_stats meal_id result) t = t).
Proof.
  repeat apply conj.
  - intros meal cuisine price difficulty e.
    by_run run_create_meal.
    destruct (num_le0 price); [reflexivity|].
    destruct (str_in difficulty LEVELS); [|reflexivity].
    destruct (bindable (parameter_of price)); [|reflexivity].
    destruct (is_sqlite_integer (next_id t)); [|reflexivity].
    destruct (bound_as_null price || has_name meal t);
      [reflexivity|discriminate].
  - intros meal_id e. by_run run_delete_meal.
    destruct (row_by_id meal_id t) as [r|];
      [|now destruct (is_sqlite_integer meal_id)].
    destruct (Row.deleted r); [reflexivity|discriminate].
  - intros meal_id result e. by_run run_update_meal_stats.
    destruct (row_by_id meal_id t) as [r|];
      [|now destruct (is_sqlite_integer meal_id)].
    destruct (Row.deleted r); [reflexivity|].
    destruct (String.eqb result "win"); [discriminate|].
    destruct (String.eqb result "loss"); [discriminate|reflexivity].
Qed.

Lemma failed_call_keeps_table_witness :
  table_after (create_meal "Tacos" "Mexican" (PyInt 4) "LOW") demo = demo /\
  table_after (create_meal "Soup" "French" (PyInt 0) "LOW") demo = demo /\
  table_after (delete_meal 4) demo = demo /\
  table_after (delete_meal 9) demo = demo /\
  table_after (update_meal_stats 1 "draw") demo = demo /\
  table_after (update_meal_stats 4 "win") demo = demo.
Proof.
  destruct (failed_call_keeps_table demo) as (Hcreate & Hdelete & Hupdate).
  repeat apply conj.
  - eapply Hcreate. reflexivity.
  - eapply Hcreate. reflexivity.
  - eapply Hdelete. reflexivity.
  - eapply Hdelete. reflexivity.
  - eapply Hupdate. reflexivity.
  - eapply Hupdate. reflexivity.
Defined.

(** * One call, seen as a step on the table *)

Lemma apply_step (o : operation) (t : table) : step t (apply o t).
Proof.
  destruct o as [meal cuisine price difficulty|meal_id|meal_id result];
    unfold apply.
  - by_run run_create_meal.
    destruct (num_le0 price) eqn:Hp; [constructor|].
    destruct (str_in difficulty LEVELS) eqn:Hd; [|constructor].
    destruct (bindable (parameter_of price)) eqn:Hb; [|constructor].
    destruct (is_sqlite_integer (next_id t)) eqn:Hroom; [|constructor].
    destruct (bound_as_null price) eqn:Hnull; [constructor|].
    destruct (has_name meal t) eqn:Hn; [constructor|].
    cbn. constructor; try assumption.
    unfold storable. now rewrite Hb, Hnull.
  - by_run run_delete_meal.
    destruct (row_by_id meal_id t) as [r|] eqn:Hr;
      [|destruct (is_sqlite_integer meal_id); constructor].
    destruct (Row.deleted r) eqn:Hd; [constructor|].
    cbn. apply (step_update t meal_id r); unfold assignment; auto.
  - by_run run_update_meal_stats.
    destruct (row_by_id meal_id t) as [r|] eqn:Hr;
      [|destruct (is_sqlite_integer meal_id); constructor].
    destruct (Row.deleted r) eqn:Hd; [constructor|].
    destruct (String.eqb result "win"); cbn.
    { apply (step_update t meal_id r); unfold assignment; auto. }
    destruct (String.eqb result "loss"); cbn; [|constructor].
    apply (step_update t meal_id r); unfold assignment; auto.
Qed.

Lemma assignment_description (g : Row.t -> Row.t) (r : Row.t) :
  assignment g -> same_description r (g r).
Proof.
  intros [-> | [-> | ->]]; repeat split.
Qed.

Lemma assignment_id (g : Row.t -> Row.t) :
  assignment g -> forall r, Row.id (g r) = Row.id r.
Proof.
  intros Hg r. now destruct (assignment_description g r Hg).
Qed.

Lemma assignment_counters (g : Row.t -> Row.t) (r : Row.t) :
  assignment g ->
  Row.battles r <= Row.battles (g r) /\ Row.wins r <= Row.wins (g r) /\
  (sqlite_integer (Row.battles (g r)) ->
   sqlite_integer (Row.battles r) /\
   Row.wins (g r) - Row.wins r <= Row.battles (g r) - Row.battles r).
Proof.
  intros [-> | [-> | ->]]; cbn;
    pose proof (plus_one_bounds (Row.battles r));
    pose proof (plus_one_bounds (Row.wins r));
    (split; [lia|]); (split; [lia|]); intros Hr; try (split; [exact Hr|lia]);
    destruct (plus_one_spec (Row.battles r)) as [[Hb Hb']|[Hb Hb']];
    rewrite Hb' in *; try tauto; (split; [exact Hb|lia]).
Qed.

Lemma find_app_first (f : Row.t -> bool) (t l : table) (r : Row.t) :
  find f t = Some r -> find f (t ++ l) = Some r.
Proof.
  induction t as [|x t IH]; cbn; [discriminate|].
  destruct (f x); auto.
Qed.

(** What a row may become: its description stays, its counters do not
    decrease, wins growing by no more than battles as long as battles is
    an INTEGER, and a soft-deleted row stays as it is. *)
Lemma step_row (t t' : table) (meal_id : Z) (r : Row.t) :
  step t t' -> row_by_id meal_id t = Some r ->
  exists r', row_by_id meal_id t' = Some r' /\
    same_description r r' /\
    Row.battles r <= Row.battles r' /\ Row.wins r <= Row.wins r' /\
    (sqlite_integer (Row.battles r') ->
     sqlite_integer (Row.battles r) /\
     Row.wins r' - Row.wins r <= Row.battles r' - Row.battles r) /\
    (Row.deleted r = true -> r' = r).
Proof.
  intros Hstep Hr.
  assert (Hsame : exists r', Some r = Some r' /\
    same_description r r' /\
    Row.battles r <= Row.battles r' /\ Row.wins r <= Row.wins r' /\
    (sqlite_integer (Row.battles r') ->
     sqlite_integer (Row.battles r) /\
     Row.wins r' - Row.wins r <= Row.battles r' - Row.battles r) /\
    (Row.deleted r = true -> r' = r)).
  { exists r. unfold same_description.
    split; [reflexivity|]. split; [tauto|]. split; [lia|]. split; [lia|].
    split; [intros H; split; [exact H|lia] | reflexivity]. }
  destruct Hstep
    as [|meal cuisine price difficulty Hp Hd Hs Hroom Hn|id0 r0 g Hr0 Hd0 Hg].
  - now rewrite Hr.
  - unfold row_by_id in *.
    destruct (is_sqlite_integer meal_id); [|discriminate].
    now rewrite (find_app_first _ _ _ _ Hr).
  - destruct (Z.eq_dec meal_id id0) as [->|Hne].
    + rewrite find_update_same by now apply assignment_id.
      rewrite Hr. cbn. exists (g r).
      assert (r0 = r) by congruence. subst r0.
      split; [reflexivity|]. split; [now apply assignment_description|].
      pose proof (assignment_counters g r Hg) as (Hb & Hw & Hbw).
      split; [exact Hb|]. split; [exact Hw|]. split; [exact Hbw|].
      congruence.
    + rewrite find_update_other by (try apply assignment_id; assumption).
      now rewrite Hr.
Qed.

Lemma apply_all_row (os : list operation) :
  forall (t : table) (meal_id : Z) (r : Row.t),
  row_by_id meal_id t = Some r ->
  exists r', row_by_id meal_id (apply_all os t) = Some r' /\
    same_description r r' /\
    Row.battles r <= Row.battles r' /\ Row.wins r <= Row.wins r' /\
    (sqlite_integer (Row.battles r') ->
     sqlite_integer (Row.battles r) /\
     Row.wins r' - Row.wins r <= Row.battles r' - Row.battles r) /\
    (Row.deleted r = true -> r' = r).
Proof.
  induction os as [|o os IH]; intros t meal_id r Hr; cbn.
  - exists r. unfold same_description.
    split; [exact Hr|]. split; [tauto|]. split; [lia|]. split; [lia|].
    split; [intros H; split; [exact H|lia] | reflexivity].
  - destruct (step_row t (apply o t) meal_id r (apply_step o t) Hr)
      as (r1 & Hr1 & Hdesc1 & Hb1 & Hw1 & Hbw1 & Hdel1).
    destruct (IH (apply o t) meal_id r1 Hr1)
      as (r2 & Hr2 & Hdesc2 & Hb2 & Hw2 & Hbw2 & Hdel2).
    exists r2. split; [exact Hr2|].
    split; [unfold same_description in *; intuition congruence|].
    split; [lia|]. split; [lia|]. split.
    + intros H. destruct (Hbw2 H) as [H1 Hd2].
      destruct (Hbw1 H1) as [H0 Hd1]. split; [exact H0|lia].
    + intros Hd. specialize (Hdel1 Hd). subst r1. now apply Hdel2.
Qed.

(** * The table only grows *)

(** X1: the two lookups and the leaderboard leave the table as it is,
    whether they return or raise. *)
Theorem reads_keep_table (t : table) :
  (forall meal_id, table_after (get_meal_by_id meal_id) t = t) /\
  (forall meal_name, table_after (get_meal_by_name meal_name) t = t) /\
  (forall sort_by, table_after (get_leaderboard sort_by) t = t).
Proof.
  repeat apply conj.
  - intros meal_id. by_run run_get_meal_by_id.
    destruct (row_by_id meal_id t) as [r|];
      [|now destruct (is_sqlite_integer meal_id)].
    now destruct (Row.deleted r).
  - intros meal_name. by_run run_get_meal_by_name.
    destruct (row_by_name meal_name t) as [r|]; [|reflexivity].
    now destruct (Row.deleted r).
  - intros sort_by. by_run run_get_leaderboard.
    destruct (String.eqb sort_by "win_pct"); [reflexivity|].
    now destruct (String.eqb sort_by "wins").
Qed.

(** X2: no sequence of creations, deletions and statistics updates
    removes a row or changes its identifier, name, cuisine, price or
    difficulty, and battles and wins never decrease.  As long as the
    battles counter is within SQLite's 64-bit integer range, wins have
    grown by no more than battles have. *)
Theorem rows_persist (os : list operation) (t : table) (meal_id : Z)
    (r : Row.t) :
  row_by_id meal_id t = Some r ->
  exists r', row_by_id meal_id (apply_all os t) = Some r' /\
    same_description r r' /\
    Row.battles r <= Row.battles r' /\ Row.wins r <= Row.wins r' /\
    (sqlite_integer (Row.battles r') ->
     Row.wins r' - Row.wins r <= Row.battles r' - Row.battles r).
Proof.
  intros Hr.
  destruct (apply_all_row os t meal_id r Hr)
    as (r' & H1 & H2 & H3 & H4 & H5 & _).
  exists r'. split; [exact H1|]. split; [exact H2|]. split; [exact H3|].
  split; [exact H4|]. intros H. now apply H5.
Qed.

Lemma rows_persist_witness :
  exists r',
    row_by_id 2
      (apply_all [UpdateStats 2 "win"; Delete 2;
                  Create "Soup" "French" (PyInt 4) "LOW";
                  UpdateStats 2 "loss"] demo) = Some r' /\
    same_description
      (Row.mk 2 "Sushi" "Japanese" (PyInt 12) "HIGH" 8 4 false) r' /\
    8 <= Row.battles r' /\ 4 <= Row.wins r' /\
    (sqlite_integer (Row.battles r') ->
     Row.wins r' - 4 <= Row.battles r' - 8).
Proof.
  apply (rows_persist
           [UpdateStats 2 "win"; Delete 2;
            Create "Soup" "French" (PyInt 4) "LOW"; UpdateStats 2 "loss"]
           demo 2 (Row.mk 2 "Sushi" "Japanese" (PyInt 12) "HIGH" 8 4 false)).
  reflexivity.
Defined.

(** At the end of the INTEGER range the battles counter stops while the
    wins counter goes on: two wins on a row with 2^63 - 1 battles and no
    win leave 2^63 battles and two wins. *)
Example counters_at_the_end_of_the_range :
  apply_all [UpdateStats 1 "win"; UpdateStats 1 "win"]
    [Row.mk 1 "Pizza" "Italian" (PyInt 5) "LOW" (2 ^ 63 - 1) 0 false]
  = [Row.mk 1 "Pizza" "Italian" (PyInt 5) "LOW" (2 ^ 63) 2 false].
Proof.
  reflexivity.
Qed.

(** X3: a soft-deleted row is frozen: after any sequence of creations,
    deletions and statistics updates it is still there, still deleted,
    with the statistics it had. *)
Theorem deleted_row_frozen (os : list operation) (t : table) (meal_id : Z)
    (r : Row.t) :
  row_by_id meal_id t = Some r -> Row.deleted r = true ->
  row_by_id meal_id (apply_all os t) = Some r.
Proof.
  intros Hr Hd.
  destruct (apply_all_row os t meal_id r Hr) as (r' & H1 & _ & _ & _ & _ & H6).
  now rewrite H1, (H6 Hd).
Qed.

Lemma deleted_row_frozen_witness :
  row_by_id 4
    (apply_all [UpdateStats 4 "win"; Delete 4;
                Create "Tacos" "Mexican" (PyInt 3) "LOW";
                UpdateStats 1 "loss"] demo)
  = Some (Row.mk 4 "Tacos" "Mexican" (PyInt 3) "LOW" 2 2 true).
Proof.
  apply (deleted_row_frozen
           [UpdateStats 4 "win"; Delete 4;
            Create "Tacos" "Mexican" (PyInt 3) "LOW"; UpdateStats 1 "loss"]
           demo 4 (Row.mk 4 "Tacos" "Mexican" (PyInt 3) "LOW" 2 2 true));
    reflexivity.
Defined.

(** * Invariants of reachable tables *)

Lemma reachable_by_steps (P : table -> Prop) :
  P [] -> (forall t t', P t -> step t t' -> P t') ->
  forall t, reachable t -> P t.
Proof.
  intros Hnil Hstep t Hreach. induction Hreach as [|o t Hreach IH].
  - exact Hnil.
  - eapply Hstep; [exact IH | apply apply_step].
Qed.

Lemma reachable_apply_all (os : list operation) (t : table) :
  reachable t -> reachable (apply_all os t).
Proof.
  revert t. induction os as [|o os IH]; intros t Ht; cbn; [assumption|].
  apply IH. now constructor.
Qed.

Lemma NoDup_snoc {A : Type} (l : list A) (x : A) :
  NoDup l -> ~ In x l -> NoDup (l ++ [x]).
Proof.
  intros Hl Hx. apply (Permutation_NoDup (l := x :: l)).
  - apply Permutation_cons_append.
  - now constructor.
Qed.

Lemma map_update {A : Type} (f : Row.t -> A) (c : Row.t -> bool)
    (g : Row.t -> Row.t) (t : table) :
  (forall r, f (g r) = f r) ->
  map f (map (fun x => if c x then g x else x) t) = map f t.
Proof.
  intros Hg. rewrite map_map. apply map_ext.
  intros x. now destruct (c x).
Qed.

Lemma step_ids (t t' : table) :
  step t t' -> NoDup (map Row.id t) -> NoDup (map Row.id t').
Proof.
  intros [|meal cuisine price difficulty Hp Hd Hs Hroom Hn|meal_id r g Hr Hd Hg] Ht.
  - assumption.
  - rewrite map_app. cbn. apply NoDup_snoc; [assumption|].
    intros Hin. apply in_map_iff in Hin. destruct Hin as (x & Hx & Hin).
    apply next_id_above in Hin. lia.
  - rewrite map_update; [assumption|]. now apply assignment_id.
Qed.

Lemma step_names (t t' : table) :
  step t t' -> NoDup (map Row.meal t) -> NoDup (map Row.meal t').
Proof.
  intros [|meal cuisine price difficulty Hp Hd Hs Hroom Hn|meal_id r g Hr Hd Hg] Ht.
  - assumption.
  - rewrite map_app. cbn. apply NoDup_snoc; [assumption|].
    intros Hin. apply in_map_iff in Hin. destruct Hin as (x & Hx & Hin).
    now apply (proj1 (has_name_false meal t) Hn x).
  - rewrite map_update; [assumption|].
    intros x. now destruct (assignment_description g x Hg) as (_ & H & _).
Qed.

Lemma reachable_ids (t : table) : reachable t -> NoDup (map Row.id t).
Proof.
  revert t. apply (reachable_by_steps (fun t => NoDup (map Row.id t)));
    [constructor|].
  intros t1 t2 H1 Hs. now apply (step_ids t1).
Qed.

Lemma reachable_names (t : table) : reachable t -> NoDup (map Row.meal t).
Proof.
  revert t. apply (reachable_by_steps (fun t => NoDup (map Row.meal t)));
    [constructor|].
  intros t1 t2 H1 Hs. now apply (step_names t1).
Qed.

Lemma NoDup_map_eq {A : Type} (f : Row.t -> A) (t : table) (r1 r2 : Row.t) :
  NoDup (map f t) -> In r1 t -> In r2 t -> f r1 = f r2 -> r1 = r2.
Proof.
  induction t as [|x t IH]; cbn; [contradiction|].
  intros Hnd [->|H1] [->|H2] Heq; inversion Hnd as [|? ? Hx Hnd']; subst.
  - reflexivity.
  - exfalso. apply Hx. rewrite Heq. now apply in_map.
  - exfalso. apply Hx. rewrite <- Heq. now apply in_map.
  - now apply IH.
Qed.

(** X4: in a reachable table no two rows share an identifier and no two
    rows, soft-deleted or not, share a name. *)
Theorem reachable_keys_unique (t : table) :
  reachable t -> NoDup (map Row.id t) /\ NoDup (map Row.meal t).
Proof.
  intros Hreach. split.
  - now apply reachable_ids.
  - now apply reachable_names.
Qed.

Lemma reachable_keys_unique_witness :
  NoDup (map Row.id played) /\ NoDup (map Row.meal played).
Proof.
  apply reachable_keys_unique.
  apply reachable_apply_all, reachable_empty.
Defined.

Lemma step_prices (t t' : table) :
  step t t' ->
  Forall (fun r => num_le0 (Row.price r) = false /\
                   In (Row.difficulty r) LEVELS) t ->
  Forall (fun r => num_le0 (Row.price r) = false /\
                   In (Row.difficulty r) LEVELS) t'.
Proof.
  intros [|meal cuisine price difficulty Hp Hd Hs Hroom Hn|meal_id r g Hr Hd Hg] Ht.
  - assumption.
  - apply Forall_app. split; [assumption|].
    constructor; [|constructor]. cbn. split; [assumption|].
    unfold str_in in Hd. apply existsb_exists in Hd.
    destruct Hd as (x & Hin & Heq). apply String.eqb_eq in Heq. now subst x.
  - apply Forall_update; [|assumption].
    intros x Hx. destruct (assignment_description g x Hg) as (_ & _ & _ & -> & ->).
    exact Hx.
Qed.

(** X5: every row of a reachable table, soft-deleted or not, has a price
    that is not [<= 0] and a difficulty among LOW, MED and HIGH, as
    creation demanded: no later operation touches either column. *)
Theorem reachable_rows_valid (t : table) :
  reachable t ->
  Forall (fun r => num_le0 (Row.price r) = false /\
                   In (Row.difficulty r) LEVELS) t.
Proof.
  revert t.
  apply (reachable_by_steps
           (Forall (fun r => num_le0 (Row.price r) = false /\
                             In (Row.difficulty r) LEVELS)));
    [constructor|].
  intros t1 t2 H1 Hs. now apply (step_prices t1).
Qed.

Lemma reachable_rows_valid_witness :
  Forall (fun r => num_le0 (Row.price r) = false /\
                   In (Row.difficulty r) LEVELS)
    (apply_all [Create "Pizza" "Italian" (PyInt 5) "LOW";
                Create "Free" "None" (PyInt 0) "LOW";
                Create "Sushi" "Japanese" (PyInt 12) "EASY";
                UpdateStats 1 "win"; Delete 1] []).
Proof.
  apply reachable_rows_valid.
  apply reachable_apply_all, reachable_empty.
Defined.

Lemma find_the_row (f : Row.t -> bool) (t : table) (r : Row.t) :
  In r t -> f r = true ->
  (forall x, In x t -> f x = true -> x = r) ->
  find f t = Some r.
Proof.
  intros Hin Hf Huniq. destruct (find f t) as [x|] eqn:E.
  - apply find_some in E. destruct E as [Hx Hfx]. f_equal. now apply Huniq.
  - apply (find_none _ _ E) in Hin. congruence.
Qed.

Lemma row_by_id_some (meal_id : Z) (t : table) (r : Row.t) :
  row_by_id meal_id t = Some r ->
  In r t /\ Row.id r = meal_id /\ is_sqlite_integer meal_id = true.
Proof.
  unfold row_by_id. destruct (is_sqlite_integer meal_id); [|discriminate].
  intros Hr. apply find_some in Hr. destruct Hr as [Hin Hid].
  unfold where_id in Hid. apply Z.eqb_eq in Hid. auto.
Qed.

Lemma step_ids_in_range (t t' : table) :
  step t t' ->
  Forall (fun r => is_sqlite_integer (Row.id r) = true) t ->
  Forall (fun r => is_sqlite_integer (Row.id r) = true) t'.
Proof.
  intros [|meal cuisine price difficulty Hp Hd Hs Hroom Hn|meal_id r g Hr Hd Hg] Ht.
  - assumption.
  - apply Forall_app. split; [assumption|]. now repeat constructor.
  - apply Forall_update; [|assumption].
    intros x Hx. now rewrite (assignment_id g Hg).
Qed.

(** The identifiers of a reachable table are INTEGERs. *)
Lemma reachable_ids_in_range (t : table) :
  reachable t -> Forall (fun r => is_sqlite_integer (Row.id r) = true) t.
Proof.
  revert t.
  apply (reachable_by_steps
           (Forall (fun r => is_sqlite_integer (Row.id r) = true)));
    [constructor|].
  intros t1 t2 H1 Hs. now apply (step_ids_in_range t1).
Qed.

Lemma reachable_row_by_id (t : table) (r : Row.t) :
  reachable t -> In r t -> row_by_id (Row.id r) t = Some r.
Proof.
  intros Hreach Hin. unfold row_by_id.
  pose proof (reachable_ids_in_range t Hreach) as Hrange.
  rewrite Forall_forall in Hrange. rewrite (Hrange r Hin).
  apply find_the_row; [assumption| |].
  - unfold where_id. apply Z.eqb_refl.
  - intros x Hx Hfx. unfold where_id in Hfx. apply Z.eqb_eq in Hfx.
    eapply NoDup_map_eq; eauto using reachable_ids.
Qed.

Lemma reachable_row_by_name (t : table) (r : Row.t) :
  reachable t -> In r t -> row_by_name (Row.meal r) t = Some r.
Proof.
  intros Hreach Hin. apply find_the_row; [assumption| |].
  - unfold where_meal. apply String.eqb_refl.
  - intros x Hx Hfx. unfold where_meal in Hfx. apply String.eqb_eq in Hfx.
    eapply NoDup_map_eq; eauto using reachable_names.
Qed.

Lemma construct_returns (r : Row.t) (m : Meal.t) :
  construct r = Ok m -> m = meal_of r.
Proof.
  unfold construct.
  destruct (num_lt0 (Row.price r)); [discriminate|].
  destruct (negb (str_in (Row.difficulty r) LEVELS)); [discriminate|].
  congruence.
Qed.

Lemma get_meal_by_id_returns (t : table) (meal_id : Z) (m : Meal.t) :
  outcome (get_meal_by_id meal_id) t = Ok m ->
  exists r, row_by_id meal_id t = Some r /\ Row.deleted r = false /\
            construct r = Ok m.
Proof.
  by_run run_get_meal_by_id.
  destruct (row_by_id meal_id t) as [r|];
    [|now destruct (is_sqlite_integer meal_id)].
  destruct (Row.deleted r) eqn:Hd; [discriminate|].
  cbn. intros Hc. now exists r.
Qed.

Lemma get_meal_by_name_returns (t : table) (meal_name : string) (m : Meal.t) :
  outcome (get_meal_by_name meal_name) t = Ok m ->
  exists r, row_by_name meal_name t = Some r /\ Row.deleted r = false /\
            construct r = Ok m.
Proof.
  by_run run_get_meal_by_name.
  destruct (row_by_name meal_name t) as [r|]; [|discriminate].
  destruct (Row.deleted r) eqn:Hd; [discriminate|].
  cbn. intros Hc. now exists r.
Qed.

(** * The two lookups agree *)

(** X6: on a reachable table, a meal returned by the lookup by name
    carries that name, and the lookup by its identifier returns the same
    meal; a meal returned by the lookup by identifier carries that
    identifier, and the lookup by its name returns the same meal. *)
Theorem lookups_agree (t : table) :
  reachable t ->
  (forall meal_name m,
     outcome (get_meal_by_name meal_name) t = Ok m ->
     Meal.meal m = meal_name /\
     outcome (get_meal_by_id (Meal.id m)) t = Ok m) /\
  (forall meal_id m,
     outcome (get_meal_by_id meal_id) t = Ok m ->
     Meal.id m = meal_id /\
     outcome (get_meal_by_name (Meal.meal m)) t = Ok m).
Proof.
  intros Hreach. split.
  - intros meal_name m Hget.
    destruct (get_meal_by_name_returns _ _ _ Hget) as (r & Hr & Hd & Hc).
    pose proof (construct_returns _ _ Hc) as ->.
    apply find_some in Hr. destruct Hr as [Hin Hname].
    unfold where_meal in Hname. apply String.eqb_eq in Hname.
    split; [exact Hname|]. cbn [meal_of Meal.id].
    by_run run_get_meal_by_id.
    now rewrite (reachable_row_by_id t r Hreach Hin), Hd.
  - intros meal_id m Hget.
    destruct (get_meal_by_id_returns _ _ _ Hget) as (r & Hr & Hd & Hc).
    pose proof (construct_returns _ _ Hc) as ->.
    apply row_by_id_some in Hr. destruct Hr as (Hin & Hid & _).
    split; [exact Hid|]. cbn [meal_of Meal.meal].
    by_run run_get_meal_by_name.
    now rewrite (reachable_row_by_name t r Hreach Hin), Hd.
Qed.

Lemma lookups_agree_witness :
  (Meal.meal (Meal.mk 2 "Sushi" "Japanese" (PyInt 12) "HIGH") = "Sushi" /\
   outcome (get_meal_by_id 2) played
   = Ok (Meal.mk 2 "Sushi" "Japanese" (PyInt 12) "HIGH")) /\
  (Meal.id (Meal.mk 1 "Pizza" "Italian" (PyInt 5) "LOW") = 1 /\
   outcome (get_meal_by_name "Pizza") played
   = Ok (Meal.mk 1 "Pizza" "Italian" (PyInt 5) "LOW")).
Proof.
  assert (Hreach : reachable played)
    by apply reachable_apply_all, reachable_empty.
  destruct (lookups_agree played Hreach) as [Hname Hid].
  split.
  - apply (Hname "Sushi" (Meal.mk 2 "Sushi" "Japanese" (PyInt 12) "HIGH")).
    reflexivity.
  - apply (Hid 1 (Meal.mk 1 "Pizza" "Italian" (PyInt 5) "LOW")).
    reflexivity.
Defined.

(** * Counting battles *)

Lemma update_row (t : table) (meal_id : Z) (result : string) (r : Row.t) :
  row_by_id meal_id t = Some r -> Row.deleted r = false ->
  row_by_id meal_id (apply (UpdateStats meal_id result) t)
  = Some (if String.eqb result "win" then SET_battles_wins r
          else if String.eqb result "loss" then SET_battles r
          else r).
Proof.
  intros Hr Hd. unfold apply. by_run run_update_meal_stats.
  rewrite Hr, Hd.
  destruct (String.eqb result "win"); cbn.
  { now rewrite find_update_same, Hr by reflexivity. }
  destruct (String.eqb result "loss"); cbn; [|assumption].
  now rewrite find_update_same, Hr by reflexivity.
Qed.

(** X7: a series of statistics updates on a meal that is present and not
    soft-deleted adds to its battles the number of outcomes that are
    [win] or [loss] and to its wins the number that are [win], as long
    as neither counter is taken beyond 2^63, where SQLite's integers
    end; the other outcomes, which fail, count for nothing. *)
Theorem stats_count (results : list string) :
  forall (t : table) (meal_id : Z) (r : Row.t),
  row_by_id meal_id t = Some r -> Row.deleted r = false ->
  - 2 ^ 63 <= Row.battles r ->
  Row.battles r + Z.of_nat (count_occ string_dec results "win")
  + Z.of_nat (count_occ string_dec results "loss") <= 2 ^ 63 ->
  - 2 ^ 63 <= Row.wins r ->
  Row.wins r + Z.of_nat (count_occ string_dec results "win") <= 2 ^ 63 ->
  row_by_id meal_id (apply_all (map (UpdateStats meal_id) results) t)
  = Some (Row.mk (Row.id r) (Row.meal r) (Row.cuisine r) (Row.price r)
                 (Row.difficulty r)
                 (Row.battles r
                  + Z.of_nat (count_occ string_dec results "win")
                  + Z.of_nat (count_occ string_dec results "loss"))
                 (Row.wins r
                  + Z.of_nat (count_occ string_dec results "win"))
                 false).
Proof.
  induction results as [|res results IH];
    intros t meal_id r Hr Hd Hb0 Hb1 Hw0 Hw1.
  - cbn. rewrite Hr. destruct r; cbn in *. subst. f_equal. f_equal; lia.
  - cbn [map apply_all fold_left].
    pose proof (update_row t meal_id res r Hr Hd) as Hstep.
    destruct (String.eqb res "win") eqn:Ew.
    + apply String.eqb_eq in Ew. subst res.
      fold (apply_all (map (UpdateStats meal_id) results)
                      (apply (UpdateStats meal_id "win") t)).
      rewrite count_occ_cons_eq in * by reflexivity.
      rewrite count_occ_cons_neq in * by discriminate.
      assert (Hb : plus_one (Row.battles r) = Row.battles r + 1)
        by (apply plus_one_in_range; unfold sqlite_integer; lia).
      assert (Hw : plus_one (Row.wins r) = Row.wins r + 1)
        by (apply plus_one_in_range; unfold sqlite_integer; lia).
      rewrite (IH _ _ _ Hstep) by (cbn; rewrite ?Hb, ?Hw; solve [assumption | lia]).
      cbn. rewrite Hb, Hw. f_equal. f_equal; lia.
    + destruct (String.eqb res "loss") eqn:El.
      * apply String.eqb_eq in El. subst res.
        fold (apply_all (map (UpdateStats meal_id) results)
                        (apply (UpdateStats meal_id "loss") t)).
        rewrite count_occ_cons_neq in * by discriminate.
        rewrite count_occ_cons_eq in * by reflexivity.
        assert (Hb : plus_one (Row.battles r) = Row.battles r + 1)
          by (apply plus_one_in_range; unfold sqlite_integer; lia).
        rewrite (IH _ _ _ Hstep) by (cbn; rewrite ?Hb; solve [assumption | lia]).
        cbn. rewrite Hb. f_equal. f_equal; lia.
      * apply String.eqb_neq in Ew, El.
        fold (apply_all (map (UpdateStats meal_id) results)
                        (apply (UpdateStats meal_id res) t)).
        rewrite !count_occ_cons_neq in * by congruence.
        now rewrite (IH _ _ _ Hstep) by assumption.
Qed.

Lemma stats_count_witness :
  row_by_id 1
    (apply_all (map (UpdateStats 1) ["win"; "draw"; "loss"; "win"; "LOSS"])
               demo)
  = Some (Row.mk 1 "Pizza" "Italian" (PyFloat (Float64.of_Z 5)) "LOW"
                 7 5 false).
Proof.
  apply (stats_count ["win"; "draw"; "loss"; "win"; "LOSS"] demo 1
           (Row.mk 1 "Pizza" "Italian" (PyFloat (Float64.of_Z 5)) "LOW"
                   4 3 false));
    try reflexivity; cbn; lia.
Defined.

(** * Operations on different meals commute *)

Lemma map_unchanged (c : Row.t -> bool) (t : table) :
  map (fun x => if c x then x else x) t = t.
Proof.
  rewrite <- (map_id t) at 2. apply map_ext. intros x. now destruct (c x).
Qed.

Lemma effect_id (o : operation) (found : option Row.t) (x : Row.t) :
  Row.id (effect o found x) = Row.id x.
Proof.
  unfold effect. destruct found as [r|]; [|reflexivity].
  destruct (Row.deleted r); [reflexivity|].
  destruct o as [meal cuisine price difficulty|meal_id|meal_id result];
    try reflexivity.
  destruct (String.eqb result "win"); [reflexivity|].
  destruct (String.eqb result "loss"); reflexivity.
Qed.

Lemma apply_effect (o : operation) (meal_id : Z) (t : table) :
  key_of o = Some meal_id ->
  apply o t
  = map (fun x => if where_id meal_id x
                  then effect o (row_by_id meal_id t) x else x) t.
Proof.
  destruct o as [meal cuisine price difficulty|id0|id0 result]; cbn;
    intros [= <-].
  - by_run run_delete_meal. unfold effect.
    destruct (row_by_id id0 t) as [r|];
      [|destruct (is_sqlite_integer id0); now rewrite map_unchanged].
    destruct (Row.deleted r); [now rewrite map_unchanged|reflexivity].
  - by_run run_update_meal_stats. unfold effect.
    destruct (row_by_id id0 t) as [r|];
      [|destruct (is_sqlite_integer id0); now rewrite map_unchanged].
    destruct (Row.deleted r); [now rewrite map_unchanged|].
    destruct (String.eqb result "win"); [reflexivity|].
    destruct (String.eqb result "loss"); [reflexivity|].
    cbn. now rewrite map_unchanged.
Qed.

(** X8: two operations among deletions and statistics updates that are
    about different identifiers commute: the table they leave does not
    depend on the order of the two calls. *)
Theorem keyed_operations_commute (o1 o2 : operation) (id1 id2 : Z)
    (t : table) :
  key_of o1 = Some id1 -> key_of o2 = Some id2 -> id1 <> id2 ->
  apply o1 (apply o2 t) = apply o2 (apply o1 t).
Proof.
  intros H1 H2 Hne.
  assert (Hr1 : row_by_id id1 (apply o2 t) = row_by_id id1 t).
  { rewrite (apply_effect o2 id2 t H2).
    apply find_update_other; auto using effect_id. }
  assert (Hr2 : row_by_id id2 (apply o1 t) = row_by_id id2 t).
  { rewrite (apply_effect o1 id1 t H1).
    apply find_update_other; auto using effect_id. }
  rewrite (apply_effect o1 id1 (apply o2 t) H1), Hr1.
  rewrite (apply_effect o2 id2 (apply o1 t) H2), Hr2.
  rewrite (apply_effect o2 id2 t H2), (apply_effect o1 id1 t H1).
  rewrite !map_map. apply map_ext. intros x. unfold where_id.
  destruct (Row.id x =? id1) eqn:E1, (Row.id x =? id2) eqn:E2;
    rewrite ?effect_id, ?E1, ?E2; try reflexivity.
  lia.
Qed.

Lemma keyed_operations_commute_witness :
  apply (UpdateStats 1 "win") (apply (Delete 2) demo)
  = apply (Delete 2) (apply (UpdateStats 1 "win") demo).
Proof.
  apply (keyed_operations_commute (UpdateStats 1 "win") (Delete 2) 1 2 demo);
    [reflexivity | reflexivity | discriminate].
Defined.

(** * What a soft deletion hides *)

Lemma ordered_perm (o : order_clause) (l : list Row.t) :
  Permutation (ordered o l) l.
Proof.
  destruct o; apply ORDER_BY_DESC_perm.
Qed.

Lemma leaderboard_returns (t : table) (sort_by : string)
    (entries : list Entry.t) :
  outcome (get_leaderboard sort_by) t = Ok entries ->
  exists rows, entries = map entry_of rows /\
               Permutation rows (filter on_leaderboard t).
Proof.
  unfold outcome. rewrite run_get_leaderboard, !map_entry_of_row.
  destruct (String.eqb sort_by "win_pct"); cbn [fst].
  { intros [= <-]. eexists. split;
      [reflexivity | apply (ordered_perm ORDER_BY_win_pct_DESC)]. }
  destruct (String.eqb sort_by "wins"); cbn [fst]; [|discriminate].
  intros [= <-]. eexists. split;
    [reflexivity | apply (ordered_perm ORDER_BY_wins_DESC)].
Qed.

Lemma leaderboard_entry (t : table) (sort_by : string)
    (entries : list Entry.t) (e : Entry.t) :
  outcome (get_leaderboard sort_by) t = Ok entries ->
  (In e entries <->
   exists r, In r t /\ Row.deleted r = false /\ 0 < Row.battles r /\
             e = entry_of r).
Proof.
  intros Hget.
  destruct (leaderboard_returns t sort_by entries Hget) as (rows & -> & Hperm).
  rewrite in_map_iff. split.
  - intros (r & <- & Hin). exists r.
    apply (Permutation_in _ Hperm), filter_In in Hin.
    destruct Hin as [Hin Hon]. unfold on_leaderboard in Hon.
    apply andb_true_iff in Hon. destruct Hon as [Hd Hb].
    apply negb_true_iff in Hd. apply Z.ltb_lt in Hb. auto.
  - intros (r & Hin & Hd & Hb & ->). exists r. split; [reflexivity|].
    apply (Permutation_in _ (Permutation_sym Hperm)), filter_In.
    split; [assumption|]. unfold on_leaderboard.
    rewrite Hd. cbn. now apply Z.ltb_lt.
Qed.

Lemma delete_meal_returns (t : table) (meal_id : Z) :
  outcome (delete_meal meal_id) t = Ok tt ->
  exists r, row_by_id meal_id t = Some r /\ Row.deleted r = false /\
    table_after (delete_meal meal_id) t
    = map (fun x => if where_id meal_id x then SET_deleted x else x) t.
Proof.
  by_run run_delete_meal.
  destruct (row_by_id meal_id t) as [r|];
    [|now destruct (is_sqlite_integer meal_id)].
  destruct (Row.deleted r) eqn:Hd; [discriminate|].
  intros _. now exists r.
Qed.

(** X9: once a meal is soft-deleted, the lookup by its identifier and
    every statistics update on it fail with already-deleted, no
    leaderboard lists it, and no creation under its name succeeds; on a
    reachable table the lookup by its name fails with already-deleted as
    well. *)
Theorem deleted_meal_hidden (t : table) (meal_id : Z) (r : Row.t) :
  row_by_id meal_id t = Some r ->
  outcome (delete_meal meal_id) t = Ok tt ->
  let t' := table_after (delete_meal meal_id) t in
  fails (get_meal_by_id meal_id) t' = Some already_deleted /\
  (forall result,
     fails (update_meal_stats meal_id result) t' = Some already_deleted) /\
  (forall sort_by entries,
     outcome (get_leaderboard sort_by) t' = Ok entries ->
     forall e, In e entries -> Entry.id e <> meal_id) /\
  (forall cuisine price difficulty,
     outcome (create_meal (Row.meal r) cuisine price difficulty) t'
     <> Ok tt) /\
  (reachable t ->
     fails (get_meal_by_name (Row.meal r)) t' = Some already_deleted).
Proof.
  intros Hr Hdel t'.
  destruct (delete_meal_returns t meal_id Hdel) as (r0 & Hr0 & Hd & Ht').
  assert (r0 = r) by congruence. subst r0.
  assert (Hr' : row_by_id meal_id t' = Some (SET_deleted r)).
  { unfold t'. rewrite Ht'. now rewrite find_update_same, Hr by reflexivity. }
  assert (Hin' : In (SET_deleted r) t').
  { apply row_by_id_some in Hr'. tauto. }
  repeat apply conj.
  - by_run run_get_meal_by_id. now rewrite Hr'.
  - intros result. by_run run_update_meal_stats. now rewrite Hr'.
  - intros sort_by entries Hget e He Hid.
    apply (leaderboard_entry t' sort_by entries e Hget) in He.
    destruct He as (x & Hx & Hxd & _ & ->). cbn in Hid.
    unfold t' in Hx. rewrite Ht' in Hx. apply in_map_iff in Hx.
    destruct Hx as (y & Hy & _). unfold where_id in Hy.
    destruct (Row.id y =? meal_id) eqn:E.
    + subst x. discriminate.
    + subst x. lia.
  - intros cuisine price difficulty. by_run run_create_meal.
    destruct (num_le0 price); [discriminate|].
    destruct (str_in difficulty LEVELS); [|discriminate].
    destruct (bindable (parameter_of price)); [|discriminate].
    destruct (is_sqlite_integer (next_id t')); [|discriminate].
    assert (has_name (Row.meal r) t' = true) as ->;
      [|rewrite orb_true_r; discriminate].
    apply has_name_true. exists (SET_deleted r). now split.
  - intros Hreach.
    assert (Hreach' : reachable t').
    { unfold t'. apply (reachable_apply (Delete meal_id)). exact Hreach. }
    by_run run_get_meal_by_name.
    change (Row.meal r) with (Row.meal (SET_deleted r)).
    now rewrite (reachable_row_by_name t' (SET_deleted r) Hreach' Hin').
Qed.

Lemma deleted_meal_hidden_witness :
  let t' := table_after (delete_meal 1) played in
  fails (get_meal_by_id 1) t' = Some already_deleted /\
  fails (update_meal_stats 1 "win") t' = Some already_deleted /\
  Entry.id (Entry.mk 2 "Sushi" "Japanese" (PyInt 12) "HIGH" 1 0
                     Float64.zero) <> 1 /\
  outcome (create_meal "Pizza" "Roman" (PyInt 6) "MED") t' <> Ok tt /\
  fails (get_meal_by_name "Pizza") t' = Some already_deleted.
Proof.
  intros t'.
  destruct (deleted_meal_hidden played 1
              (Row.mk 1 "Pizza" "Italian" (PyInt 5) "LOW" 2 1 false)
              eq_refl eq_refl) as (H1 & H2 & H3 & H4 & H5).
  split; [exact H1|]. split; [exact (H2 "win")|].
  split.
  { apply (H3 "wins"
              [Entry.mk 2 "Sushi" "Japanese" (PyInt 12) "HIGH" 1 0
                        Float64.zero]);
      [reflexivity | left; reflexivity]. }
  split; [exact (H4 "Roman" (PyInt 6) "MED")|].
  apply H5. apply reachable_apply_all, reachable_empty.
Defined.

(** * A new meal and the leaderboard *)

Lemma create_meal_returns (t : table) (meal cuisine : string)
    (price : number) (difficulty : string) :
  outcome (create_meal meal cuisine price difficulty) t = Ok tt ->
  table_after (create_meal meal cuisine price difficulty) t
  = t ++ [Row.mk (next_id t) meal cuisine price difficulty 0 0 false].
Proof.
  by_run run_create_meal.
  destruct (num_le0 price); [discriminate|].
  destruct (str_in difficulty LEVELS); [|discriminate].
  destruct (bindable (parameter_of price)); [|discriminate].
  destruct (is_sqlite_integer (next_id t)); [|discriminate].
  destruct (bound_as_null price || has_name meal t);
    [discriminate|reflexivity].
Qed.

Lemma create_meal_room (t : table) (meal cuisine : string)
    (price : number) (difficulty : string) :
  outcome (create_meal meal cuisine price difficulty) t = Ok tt ->
  is_sqlite_integer (next_id t) = true.
Proof.
  by_run run_create_meal.
  destruct (num_le0 price); [discriminate|].
  destruct (str_in difficulty LEVELS); [|discriminate].
  destruct (bindable (parameter_of price)); [|discriminate].
  destruct (is_sqlite_integer (next_id t)); [reflexivity|discriminate].
Qed.

(** X11: a meal that has just been created is on no leaderboard; after a
    first statistics update with outcome [win] on its identifier, every
    leaderboard lists it with one battle, one win and 100.0 percent. *)
Theorem first_win_on_leaderboard (t : table) (meal cuisine : string)
    (price : number) (difficulty : string) :
  outcome (create_meal meal cuisine price difficulty) t = Ok tt ->
  let t1 := table_after (create_meal meal cuisine price difficulty) t in
  let t2 := table_after (update_meal_stats (next_id t) "win") t1 in
  (forall sort_by entries,
     outcome (get_leaderboard sort_by) t1 = Ok entries ->
     forall e, In e entries -> Entry.id e <> next_id t) /\
  (forall sort_by entries,
     outcome (get_leaderboard sort_by) t2 = Ok entries ->
     In (Entry.mk (next_id t) meal cuisine price difficulty 1 1
                  (Float64.of_Z 100)) entries).
Proof.
  intros Hcreate t1 t2.
  pose proof (create_meal_returns _ _ _ _ _ Hcreate) as Ht1.
  fold t1 in Ht1.
  set (new := Row.mk (next_id t) meal cuisine price difficulty 0 0 false)
    in *.
  assert (Hnew : row_by_id (next_id t) t1 = Some new).
  { rewrite Ht1. unfold row_by_id.
    rewrite (create_meal_room _ _ _ _ _ Hcreate). apply find_app_last.
    - intros x Hx. apply next_id_above in Hx. unfold where_id.
      apply Z.eqb_neq. lia.
    - unfold where_id, new. cbn. apply Z.eqb_refl. }
  split.
  - intros sort_by entries Hget e He Hid.
    apply (leaderboard_entry t1 sort_by entries e Hget) in He.
    destruct He as (x & Hx & _ & Hb & ->). cbn in Hid.
    rewrite Ht1 in Hx. apply in_app_or in Hx. destruct Hx as [Hx|[<-|[]]].
    + apply next_id_above in Hx. lia.
    + cbn in Hb. lia.
  - intros sort_by entries Hget.
    apply (leaderboard_entry t2 sort_by entries _ Hget).
    exists (SET_battles_wins new). repeat apply conj; try reflexivity.
    unfold t2. by_run run_update_meal_stats. rewrite Hnew. cbn.
    apply in_map_iff. exists new. split.
    + unfold where_id, new. cbn. now rewrite Z.eqb_refl.
    + apply row_by_id_some in Hnew. tauto.
Qed.

Lemma first_win_on_leaderboard_witness :
  let t1 := table_after (create_meal "Soup" "French" (PyInt 4) "LOW") played in
  let t2 := table_after (update_meal_stats 3 "win") t1 in
  Entry.id (Entry.mk 1 "Pizza" "Italian" (PyInt 5) "LOW" 2 1
                     (Float64.of_Z 50)) <> 3 /\
  In (Entry.mk 3 "Soup" "French" (PyInt 4) "LOW" 1 1 (Float64.of_Z 100))
     [ Entry.mk 3 "Soup" "French" (PyInt 4) "LOW" 1 1 (Float64.of_Z 100);
       Entry.mk 1 "Pizza" "Italian" (PyInt 5) "LOW" 2 1 (Float64.of_Z 50);
       Entry.mk 2 "Sushi" "Japanese" (PyInt 12) "HIGH" 1 0 Float64.zero ].
Proof.
  intros t1 t2.
  destruct (first_win_on_leaderboard played "Soup" "French" (PyInt 4) "LOW"
              eq_refl) as (Hbefore & Hafter).
  split.
  - apply (Hbefore "win_pct"
             [ Entry.mk 1 "Pizza" "Italian" (PyInt 5) "LOW" 2 1
                        (Float64.of_Z 50);
               Entry.mk 2 "Sushi" "Japanese" (PyInt 12) "HIGH" 1 0
                        Float64.zero ]);
      [vm_compute; reflexivity | left; reflexivity].
  - apply (Hafter "win_pct"). vm_compute. reflexivity.
Defined.

(** X12: the two sort keys list the same entries: the leaderboard by
    wins and the leaderboard by win percentage of a table are
    permutations of each other, with one entry for each row that is not
    soft-deleted and has at least one battle. *)
Theorem leaderboards_same_entries (t : table) (by_wins by_pct : list Entry.t) :
  outcome (get_leaderboard "wins") t = Ok by_wins ->
  outcome (get_leaderboard "win_pct") t = Ok by_pct ->
  Permutation by_wins by_pct /\
  Permutation by_wins
    (map entry_of
       (filter (fun r => negb (Row.deleted r) && (0 <? Row.battles r)) t)).
Proof.
  intros Hw Hp.
  destruct (leaderboard_returns _ _ _ Hw) as (rw & -> & Hpw).
  destruct (leaderboard_returns _ _ _ Hp) as (rp & -> & Hpp).
  split.
  - apply Permutation_map. now rewrite Hpw, Hpp.
  - apply Permutation_map. exact Hpw.
Qed.

Lemma leaderboards_same_entries_witness :
  Permutation
    [ Entry.mk 2 "Sushi" "Japanese" (PyInt 12) "HIGH" 8 4 (Float64.of_Z 50);
      Entry.mk 1 "Pizza" "Italian" (PyFloat (Float64.of_Z 5)) "LOW" 4 3
               (Float64.of_Z 75) ]
    [ Entry.mk 1 "Pizza" "Italian" (PyFloat (Float64.of_Z 5)) "LOW" 4 3
               (Float64.of_Z 75);
      Entry.mk 2 "Sushi" "Japanese" (PyInt 12) "HIGH" 8 4 (Float64.of_Z 50) ].
Proof.
  apply (leaderboards_same_entries demo); vm_compute; reflexivity.
Defined.

Lemma reachable_stats (t : table) : reachable t -> Forall stats_ok t.
Proof.
  induction 1 as [|o t Hreach IH]; [constructor|].
  now apply apply_stats_ok.
Qed.

(** X13: on a reachable table every leaderboard entry reports at least
    one battle and a number of wins between zero and the number of
    battles. *)
Theorem leaderboard_entries_sane (t : table) (sort_by : string)
    (entries : list Entry.t) :
  reachable t ->
  outcome (get_leaderboard sort_by) t = Ok entries ->
  Forall (fun e => 1 <= Entry.battles e /\
                   0 <= Entry.wins e <= Entry.battles e) entries.
Proof.
  intros Hreach Hget. apply Forall_forall. intros e He.
  apply (leaderboard_entry t sort_by entries e Hget) in He.
  destruct He as (r & Hin & _ & Hb & ->). cbn.
  pose proof (reachable_stats t Hreach) as Hstats.
  rewrite Forall_forall in Hstats. destruct (Hstats r Hin) as (H1 & H2 & H3).
  lia.
Qed.

Lemma leaderboard_entries_sane_witness :
  Forall (fun e => 1 <= Entry.battles e /\
                   0 <= Entry.wins e <= Entry.battles e)
    [ Entry.mk 1 "Pizza" "Italian" (PyInt 5) "LOW" 2 1 (Float64.of_Z 50);
      Entry.mk 2 "Sushi" "Japanese" (PyInt 12) "HIGH" 1 0 Float64.zero ].
Proof.
  apply (leaderboard_entries_sane played "win_pct").
  - apply reachable_apply_all, reachable_empty.
  - vm_compute. reflexivity.
Defined.
